(** * CSE investment analyzer: a shallow embedding and its verified properties

    The development embeds the data-aggregation pipeline of the Colombo Stock
    Exchange scripts: the HTTP client wrapper and the A-Z roster loop of
    [app.py] (class [CSE_API]) and the metric derivation, per-company fetch
    loop and aggregation of [company_analyzer.py]
    (class [CSE_InvestmentAnalyzer]).

    Modelling conventions.
    - Python numbers (int and float) are exact rationals [Q]; [==] on [Q] is the
      numeric equality of Python.  Rounding of binary floating point is not
      modelled.
    - A JSON field that the analyzer reads as a number holds a number or
      [null], a field it reads as text holds a string or [null], as in the
      exchange's schema.
    - Python exceptions are values of [exn]; a function that can raise returns
      in the [result] monad.
    - The network and the wall clock are parameters of the functions that use
      them; the calls a loop issues and its [time.sleep] steps are recorded in
      a trace of [event]s. *)

From Stdlib Require Import QArith Qabs Qround ZArith Lia Lqa Ascii String.
From stdpp Require Import gmap strings list fin_maps.

Local Open Scope Q_scope.
Local Open Scope string_scope.
Local Open Scope list_scope.

(** ** Exceptions *)

Inductive exn :=
  | TypeError (msg : string)
  | ZeroDivisionError
  | AttributeError (msg : string)
  | KeyError (key : string).

Inductive result (A : Type) : Type :=
  | Ok (a : A)
  | Raise (e : exn).
Arguments Ok {A} a.
Arguments Raise {A} e.

#[global] Instance result_ret : MRet result := fun A a => Ok a.
#[global] Instance result_bind : MBind result := fun A B f m =>
  match m with
  | Ok a => f a
  | Raise e => Raise e
  end.
#[global] Instance result_fmap : FMap result := fun A B f m =>
  match m with
  | Ok a => Ok (f a)
  | Raise e => Raise e
  end.

(** ** Python values of numeric fields: a number or [None] *)

Definition pynum := option Q.

(** Truthiness: [None] and zero are falsy. *)
Definition truthy (v : pynum) : bool :=
  match v with
  | Some q => negb (Qeq_bool q 0)
  | None => false
  end.

(** Use of a value in arithmetic, comparison or numeric formatting. *)
Definition num (v : pynum) : result Q :=
  match v with
  | Some q => Ok q
  | None => Raise (TypeError "unsupported operand type: NoneType")
  end.

(** True division [a / b]. *)
Definition div (a b : Q) : result Q :=
  if Qeq_bool b 0 then Raise ZeroDivisionError else Ok (a / b).

(** [a != b] on numbers or [None]. *)
Definition ne (a b : pynum) : bool :=
  match a, b with
  | Some x, Some y => negb (Qeq_bool x y)
  | None, None => false
  | _, _ => true
  end.

Definition Qltb (x y : Q) : bool := negb (Qle_bool y x).

(** ** JSON objects read with [dict.get] *)

(** A key of a JSON object: missing, bound to [null], or bound to a value. *)
Inductive field (A : Type) : Type :=
  | Missing
  | Null
  | Val (a : A).
Arguments Missing {A}.
Arguments Null {A}.
Arguments Val {A} a.

(** [d.get(k)] *)
Definition get {A} (f : field A) : option A :=
  match f with
  | Val a => Some a
  | Missing | Null => None
  end.

(** [d.get(k, dflt)]: the default replaces a missing key, not a [null]. *)
Definition get_default {A} (f : field A) (dflt : A) : option A :=
  match f with
  | Missing => Some dflt
  | Null => None
  | Val a => Some a
  end.

(** [reqSymbolInfo] of a [companyInfoSummery] response. *)
Module SymbolInfo.
Record t := mk {
    id : field Q;
    symbol : field string;
    name : field string;
    isin : field string;
    issueDate : field string;
    parValue : field Q;
    lastTradedPrice : field Q;
    previousClose : field Q;
    change : field Q;
    changePercentage : field Q;
    hiTrade : field Q;
    lowTrade : field Q;
    ytdHiPrice : field Q;
    ytdLowPrice : field Q;
    p12HiPrice : field Q;
    p12LowPrice : field Q;
    allHiPrice : field Q;
    allLowPrice : field Q;
    quantityIssued : field Q;
    tdyShareVolume : field Q;
    tdyTurnover : field Q;
    ytdShareVolume : field Q;
    ytdTurnover : field Q;
    p12ShareVolume : field Q;
    marketCap : field Q;
    marketCapPercentage : field Q;
    foreignHoldings : field Q;
    foreignPercentage : field Q
  }.

  (** The empty dict [{}]. *)
Definition empty : t :=
  mk Missing Missing Missing Missing Missing Missing Missing Missing Missing
     Missing Missing Missing Missing Missing Missing Missing Missing Missing
     Missing Missing Missing Missing Missing Missing Missing Missing Missing
     Missing.
End SymbolInfo.

(** [reqSymbolBetaInfo] of a [companyInfoSummery] response. *)
Module BetaInfo.
Record t := mk {
    triASIBetaValue : field Q;
    betaValueSPSL : field Q;
    triASIBetaPeriod : field string;
    quarter : field string
  }.

Definition empty : t := mk Missing Missing Missing Missing.
End BetaInfo.

(** [reqLogo] of a [companyInfoSummery] response. *)
Module LogoInfo.
Record t := mk { path : field string }.

Definition empty : t := mk Missing.
End LogoInfo.

(** ** Metric derivation: [CSE_InvestmentAnalyzer.calculate_investment_metrics] *)

Inductive RiskCategory := HighRisk | MediumRisk | LowRisk | VeryLowRisk.

(** The string stored under ['risk_category']. *)
Definition risk_label (c : RiskCategory) : string :=
  match c with
  | HighRisk => "High Risk"
  | MediumRisk => "Medium Risk"
  | LowRisk => "Low Risk"
  | VeryLowRisk => "Very Low Risk"
  end.

(** The [metrics] dict: a field is [None] when its key was never assigned. *)
Record Metrics := mkMetrics {
  price_change_pct : option Q;
  ytd_volatility : option Q;
  position_in_ytd_range : option Q;
  p12_volatility : option Q;
  position_in_p12_range : option Q;
  book_value_per_share : option Q;
  avg_price_ytd : option Q;
  price_vs_ytd_avg : option Q;
  risk_category : option RiskCategory
}.

(** [((a - b) / c) * 100] *)
Definition pct (a b c : pynum) : result Q :=
  x ← num a; y ← num b; z ← num c; r ← div (x - y) z; mret (r * 100).

(** The high/low block shared by the YTD and the 12-period windows:
    [if high and low and high != low: vol = ...; if last_price: pos = ...]. *)
Definition range_metrics (high low last_price : pynum)
  : result (option Q * option Q) :=
  if truthy high && truthy low && ne high low then
    vol ← pct high low low;
    if truthy last_price then
      h ← num high; l ← num low;
      pos ← pct last_price low (Some (h - l));
      mret (Some vol, Some pos)
    else mret (Some vol, None)
  else mret (None, None).

(** [if beta_asi: if beta_asi > 1.5: ... elif > 1.0: ... elif > 0.5: ... else: ...] *)
Definition risk_of_beta (beta_asi : pynum) : result (option RiskCategory) :=
  if truthy beta_asi then
    b ← num beta_asi;
    if Qltb 1.5 b then mret (Some HighRisk)
    else if Qltb 1.0 b then mret (Some MediumRisk)
    else if Qltb 0.5 b then mret (Some LowRisk)
    else mret (Some VeryLowRisk)
  else mret None.

(** [if last_price and prev_close: metrics['price_change_pct'] = ...] *)
Definition price_change_metric (last_price prev_close : pynum) : result (option Q) :=
  if truthy last_price && truthy prev_close
  then Some <$> pct last_price prev_close prev_close
  else mret None.

(** [if market_cap and quantity_issued: metrics['book_value_per_share'] = ...] *)
Definition book_value_metric (market_cap quantity_issued : pynum) : result (option Q) :=
  if truthy market_cap && truthy quantity_issued
  then c ← num market_cap; n ← num quantity_issued; Some <$> div c n
  else mret None.

(** [if ytd_volume and ytd_turnover: avg = ...;
     if last_price and metrics['avg_price_ytd']: price_vs_ytd_avg = ...] *)
Definition liquidity_metrics (ytd_volume ytd_turnover last_price : pynum)
  : result (option Q * option Q) :=
  if truthy ytd_volume && truthy ytd_turnover then
    t ← num ytd_turnover; v ← num ytd_volume; avg ← div t v;
    if truthy last_price && truthy (Some avg)
    then p ← pct last_price (Some avg) (Some avg); mret (Some avg, Some p)
    else mret (Some avg, None)
  else mret (None, None).

Definition calculate_investment_metrics
    (symbol_info : SymbolInfo.t) (beta_info : BetaInfo.t) : result Metrics :=
  (* Basic price metrics *)
  let last_price := get_default (SymbolInfo.lastTradedPrice symbol_info) 0 in
  let prev_close := get_default (SymbolInfo.previousClose symbol_info) 0 in
  m_price_change_pct ← price_change_metric last_price prev_close;
  (* Volatility indicators (using historical high/low data) *)
  let ytd_high := get_default (SymbolInfo.ytdHiPrice symbol_info) 0 in
  let ytd_low := get_default (SymbolInfo.ytdLowPrice symbol_info) 0 in
  let p12_high := get_default (SymbolInfo.p12HiPrice symbol_info) 0 in
  let p12_low := get_default (SymbolInfo.p12LowPrice symbol_info) 0 in
  ytd ← range_metrics ytd_high ytd_low last_price;
  p12 ← range_metrics p12_high p12_low last_price;
  (* Value metrics *)
  let market_cap := get_default (SymbolInfo.marketCap symbol_info) 0 in
  let quantity_issued := get_default (SymbolInfo.quantityIssued symbol_info) 0 in
  m_book_value_per_share ← book_value_metric market_cap quantity_issued;
  (* Liquidity metrics *)
  let ytd_volume := get_default (SymbolInfo.ytdShareVolume symbol_info) 0 in
  let ytd_turnover := get_default (SymbolInfo.ytdTurnover symbol_info) 0 in
  liq ← liquidity_metrics ytd_volume ytd_turnover last_price;
  (* Risk metrics *)
  let beta_asi := get (BetaInfo.triASIBetaValue beta_info) in
  m_risk_category ← risk_of_beta beta_asi;
  mret {| price_change_pct := m_price_change_pct;
          ytd_volatility := ytd.1;
          position_in_ytd_range := ytd.2;
          p12_volatility := p12.1;
          position_in_p12_range := p12.2;
          book_value_per_share := m_book_value_per_share;
          avg_price_ytd := liq.1;
          price_vs_ytd_avg := liq.2;
          risk_category := m_risk_category |}.

(** ** JSON values of roster and cache entries *)

Inductive value :=
  | VNone
  | VNum (q : Q)
  | VStr (s : string).

(** An entry of the company roster or of [company_data/data.json]: a JSON
    object with scalar fields. *)
Abbreviation company := (gmap string value).

(** [d.get(k)] and [d.get(k, dflt)] on such an object. *)
Definition dict_get (d : company) (k : string) : value :=
  default VNone (d !! k).

Definition dict_get_default (d : company) (k : string) (dflt : value) : value :=
  default dflt (d !! k).

Definition is_not_None (v : value) : bool :=
  match v with
  | VNone => false
  | _ => true
  end.

(** ** Observable steps of a fetch loop *)

Inductive event :=
  | Request (endpoint : string) (param : value)
  | Sleep (seconds : Q).

(** [str.upper] on ASCII text. *)
Definition upper_ascii (a : ascii) : ascii :=
  let n := nat_of_ascii a in
  if (97 <=? n)%nat && (n <=? 122)%nat then ascii_of_nat (n - 32) else a.

Fixpoint upper (s : string) : string :=
  match s with
  | EmptyString => EmptyString
  | String a rest => String (upper_ascii a) (upper rest)
  end.

(** ** The API client of [app.py] *)

Module CSE_API.

(** What [requests.post(...)], [raise_for_status()] and [response.json()] can
    do: answer with a 2xx status and a JSON body, raise a
    [RequestException] (network failure, timeout, non-2xx status), or fail to
    decode the body. *)
Inductive http_outcome (A : Type) : Type :=
  | HttpOk (status_code : Z) (body : A)
  | HttpRequestException (msg : string) (status_code : option Z)
  | HttpJSONDecodeError (msg : string) (status_code : Z).
Arguments HttpOk {A} status_code body.
Arguments HttpRequestException {A} msg status_code.
Arguments HttpJSONDecodeError {A} msg status_code.

(** The uniform result dict: [{'success': True, 'status_code', 'data'}] or
    [{'success': False, 'error', 'status_code'}]. *)
Inductive response (A : Type) : Type :=
  | Success (status_code : Z) (data : A)
  | Failure (error : string) (status_code : option Z).
Arguments Success {A} status_code data.
Arguments Failure {A} error status_code.

Definition _make_request {A} (outcome : http_outcome A) : response A :=
  match outcome with
  | HttpOk status body => Success status body
  | HttpRequestException msg status => Failure msg status
  | HttpJSONDecodeError msg status =>
      Failure (String.append "Failed to decode JSON response: " msg) (Some status)
  end.

(** The body of an [alphabetical] response: an object that may carry the
    roster under ['reqAlphabetical'], a bare list, or anything else. *)
Inductive roster_body :=
  | BodyObject (reqAlphabetical : field (list company))
  | BodyList (companies : list company)
  | BodyOther.

(** The remote service, as seen by the roster loop: the outcome of the
    [alphabetical] request for each letter. *)
Definition roster_network := string -> http_outcome roster_body.

Definition get_companies_by_alphabet (net : roster_network) (alphabet : string)
  : response roster_body :=
  _make_request (net (upper alphabet)).

(** [string.ascii_uppercase] *)
Definition ascii_uppercase : list string :=
  ["A"; "B"; "C"; "D"; "E"; "F"; "G"; "H"; "I"; "J"; "K"; "L"; "M";
   "N"; "O"; "P"; "Q"; "R"; "S"; "T"; "U"; "V"; "W"; "X"; "Y"; "Z"].

(** An entry of [failed_requests]: [{'letter': letter, 'error': error}]. *)
Record LetterFailure := mkLetterFailure {
  letter : string;
  error : string
}.

(** The accumulators of the loop and the trace of the calls it made. *)
Record roster_state := mkRosterState {
  all_companies : list company;
  failed_requests : list LetterFailure;
  trace : list event
}.

(** One iteration of [for letter in string.ascii_uppercase]. *)
Definition roster_step (net : roster_network) (st : roster_state) (letter : string)
  : roster_state :=
  let called := trace st ++ [Request "alphabetical" (VStr (upper letter))] in
  match get_companies_by_alphabet net letter with
  | Success _ data =>
      let companies :=
        match data with
        | BodyObject Missing => []
        | BodyObject Null => []             (* [None]: falsy, nothing is added *)
        | BodyObject (Val cs) => cs
        | BodyList cs => cs
        | BodyOther => []
        end in
      match companies with
      | [] => mkRosterState (all_companies st) (failed_requests st) called
      | _ :: _ =>
          mkRosterState (all_companies st ++ companies) (failed_requests st) called
      end
  | Failure err _ =>
      mkRosterState (all_companies st)
                    (failed_requests st ++ [mkLetterFailure letter err]) called
  end.

(** The dict returned by [get_all_companies]. *)
Record AllCompanies := mkAllCompanies {
  success : bool;
  total_companies : nat;
  active_companies : nat;
  data : list company * list company;
  result_failed_requests : list LetterFailure;
  status_code : Z
}.

(** [c.get('lastTradedTime') is not None] *)
Definition is_active (c : company) : bool :=
  is_not_None (dict_get c "lastTradedTime").

Definition get_all_companies (net : roster_network) : AllCompanies * list event :=
  let st := foldl (roster_step net) (mkRosterState [] [] []) ascii_uppercase in
  let active := List.filter is_active (all_companies st) in
  (mkAllCompanies true
                  (length (all_companies st))
                  (length active)
                  (all_companies st, active)
                  (failed_requests st)
                  200,
   trace st).

(** The body of a [companyInfoSummery] response. *)
Inductive company_info :=
  | NotAnObject
  | Object (reqSymbolInfo : field SymbolInfo.t)
           (reqSymbolBetaInfo : field BetaInfo.t)
           (reqLogo : field LogoInfo.t).

(** The remote service, as seen by the per-company loop: the outcome of the
    [i]-th request, made for [symbol]. *)
Definition info_network := nat -> value -> http_outcome company_info.

Definition get_company_info (net : info_network) (i : nat) (symbol : value)
  : response company_info :=
  _make_request (net i symbol).

End CSE_API.

(** ** The analyzer of [company_analyzer.py] *)

(** [{'success': True, 'data': ...}] or [{'success': False, 'error': ...}] *)
Inductive summary :=
  | SummaryOk (data : CSE_API.company_info)
  | SummaryFailed (error : string).

Definition get_company_summary (net : CSE_API.info_network) (i : nat) (symbol : value)
  : summary :=
  match CSE_API.get_company_info net i symbol with
  | CSE_API.Success _ data => SummaryOk data
  | CSE_API.Failure error _ => SummaryFailed error
  end.

(** The keys of [base_data], in the order of the dict literal. *)
Module Base.
Record t := mk {
    security_id : pynum;
    symbol : option string;
    name : option string;
    isin : option string;
    issue_date : option string;
    par_value : pynum;
    last_traded_price : pynum;
    previous_close : pynum;
    change : pynum;
    change_percentage : pynum;
    today_high : pynum;
    today_low : pynum;
    ytd_high : pynum;
    ytd_low : pynum;
    p12_high : pynum;
    p12_low : pynum;
    all_time_high : pynum;
    all_time_low : pynum;
    quantity_issued : pynum;
    today_volume : pynum;
    today_turnover : pynum;
    ytd_volume : pynum;
    ytd_turnover : pynum;
    p12_volume : pynum;
    market_cap : pynum;
    market_cap_percentage : pynum;
    foreign_holdings : pynum;
    foreign_percentage : pynum;
    tri_asi_beta : pynum;
    spsl_beta : pynum;
    beta_period : option string;
    beta_quarter : option string;
    has_logo : bool;
    logo_path : option string;
    analysis_timestamp : string
  }.
End Base.

(** The dict built by [extract_comprehensive_data]: [{}] after an exception,
    otherwise [base_data] updated with the metrics (their keys are disjoint). *)
Inductive analysis_fields :=
  | Empty
  | Extracted (base : Base.t) (metrics : Metrics).

(** An element of [analysis_results]; ['source_data'] is set by the loop. *)
Record CompanyAnalysis := mkCompanyAnalysis {
  fields : analysis_fields;
  source_data : option company
}.

(** [x.get(...)] on a value that may be [None]. *)
Definition as_dict {A} (what : string) (v : option A) : result A :=
  match v with
  | Some d => Ok d
  | None => Raise (AttributeError what)
  end.

(** The body of the [try] block.  The two [.get] calls on [symbol_info] and
    [beta_info] that raise on [None] happen inside
    [calculate_investment_metrics]; as that function has no effect, raising
    before the call gives the same result. *)
Definition extract_body (company_data : CSE_API.company_info) (now : string)
  : result analysis_fields :=
  match company_data with
  | CSE_API.NotAnObject => Raise (AttributeError "get")
  | CSE_API.Object reqSymbolInfo reqSymbolBetaInfo reqLogo =>
      let symbol_info := get_default reqSymbolInfo SymbolInfo.empty in
      let beta_info := get_default reqSymbolBetaInfo BetaInfo.empty in
      let logo_info := get_default reqLogo LogoInfo.empty in
      si ← as_dict "symbol_info" symbol_info;
      bi ← as_dict "beta_info" beta_info;
      investment_metrics ← calculate_investment_metrics si bi;
      let logo_path := l ← logo_info; get (LogoInfo.path l) in
      mret (Extracted
        {| Base.security_id := get (SymbolInfo.id si);
           Base.symbol := get (SymbolInfo.symbol si);
           Base.name := get (SymbolInfo.name si);
           Base.isin := get (SymbolInfo.isin si);
           Base.issue_date := get (SymbolInfo.issueDate si);
           Base.par_value := get (SymbolInfo.parValue si);
           Base.last_traded_price := get (SymbolInfo.lastTradedPrice si);
           Base.previous_close := get (SymbolInfo.previousClose si);
           Base.change := get (SymbolInfo.change si);
           Base.change_percentage := get (SymbolInfo.changePercentage si);
           Base.today_high := get (SymbolInfo.hiTrade si);
           Base.today_low := get (SymbolInfo.lowTrade si);
           Base.ytd_high := get (SymbolInfo.ytdHiPrice si);
           Base.ytd_low := get (SymbolInfo.ytdLowPrice si);
           Base.p12_high := get (SymbolInfo.p12HiPrice si);
           Base.p12_low := get (SymbolInfo.p12LowPrice si);
           Base.all_time_high := get (SymbolInfo.allHiPrice si);
           Base.all_time_low := get (SymbolInfo.allLowPrice si);
           Base.quantity_issued := get (SymbolInfo.quantityIssued si);
           Base.today_volume := get (SymbolInfo.tdyShareVolume si);
           Base.today_turnover := get (SymbolInfo.tdyTurnover si);
           Base.ytd_volume := get (SymbolInfo.ytdShareVolume si);
           Base.ytd_turnover := get (SymbolInfo.ytdTurnover si);
           Base.p12_volume := get (SymbolInfo.p12ShareVolume si);
           Base.market_cap := get (SymbolInfo.marketCap si);
           Base.market_cap_percentage := get (SymbolInfo.marketCapPercentage si);
           Base.foreign_holdings := get (SymbolInfo.foreignHoldings si);
           Base.foreign_percentage := get (SymbolInfo.foreignPercentage si);
           Base.tri_asi_beta := get (BetaInfo.triASIBetaValue bi);
           Base.spsl_beta := get (BetaInfo.betaValueSPSL bi);
           Base.beta_period := get (BetaInfo.triASIBetaPeriod bi);
           Base.beta_quarter := get (BetaInfo.quarter bi);
           Base.has_logo := bool_decide (is_Some logo_path);
           Base.logo_path := logo_path;
           Base.analysis_timestamp := now |}
        investment_metrics)
  end.

(** [try: ... except Exception: return {}] *)
Definition extract_comprehensive_data (company_data : CSE_API.company_info)
    (now : string) : analysis_fields :=
  match extract_body company_data now with
  | Ok base_data => base_data
  | Raise _ => Empty
  end.

(** [d.get(k, 0)] on the analysis dict: the default is used only when the key
    is missing, that is for the empty dict or an absent metric. *)
Definition analysis_get_base (a : analysis_fields) (k : Base.t -> pynum) : pynum :=
  match a with
  | Empty => Some 0
  | Extracted b _ => k b
  end.

Definition analysis_get_metric (a : analysis_fields) (k : Metrics -> option Q) : pynum :=
  match a with
  | Empty => Some 0
  | Extracted _ m => Some (default 0 (k m))
  end.

(** A format specification such as [+.2f] applied in an f-string: it raises
    [TypeError] on [None]. *)
Definition format_float (v : pynum) : result unit :=
  _ ← num v; mret ().

(** The progress lines printed after a successful fetch; only the formatting
    that can raise is kept. *)
Definition display_metrics (a : analysis_fields) : result unit :=
  let change_pct := analysis_get_base a Base.change_percentage in
  let market_cap := analysis_get_base a Base.market_cap in
  let ytd_pos := analysis_get_metric a position_in_ytd_range in
  _ ← format_float change_pct;
  _ ← (if truthy market_cap then format_float market_cap else mret ());
  _ ← (if truthy ytd_pos then format_float ytd_pos else mret ());
  mret ().

(** An entry of [failed_requests]. *)
Record FailureRecord := mkFailureRecord {
  failure_symbol : value;
  failure_name : value;
  failure_error : string
}.

(** The mutable attributes of the analyzer, and the trace of the calls and
    sleeps of the last run of [analyze_companies]. *)
Record analyzer := mkAnalyzer {
  company_data : list company;
  analysis_results : list CompanyAnalysis;
  failed_requests : list FailureRecord;
  trace : list event
}.

Definition record_event (e : event) (self : analyzer) : analyzer :=
  mkAnalyzer (company_data self) (analysis_results self) (failed_requests self)
             (trace self ++ [e]).

(** The body of [for i, company in enumerate(companies_to_analyze, 1)].
    The second component is the exception that escapes the iteration, if any;
    the attributes keep what was appended before it was raised. *)
Definition analyze_one (net : CSE_API.info_network) (clock : nat -> string)
    (delay : Q) (total_companies i : nat) (company : company) (self : analyzer)
  : analyzer * option exn :=
  let symbol := dict_get company "symbol" in
  let name := dict_get_default company "name" (VStr "Unknown") in
  let self := record_event (Request "companyInfoSummery" symbol) self in
  let after_fetch :=
    match get_company_summary net i symbol with
    | SummaryOk data =>
        let company_analysis :=
          mkCompanyAnalysis (extract_comprehensive_data data (clock i)) (Some company) in
        let self :=
          mkAnalyzer (company_data self)
                     (analysis_results self ++ [company_analysis])
                     (failed_requests self) (trace self) in
        (self, display_metrics (fields company_analysis))
    | SummaryFailed error =>
        let self :=
          mkAnalyzer (company_data self) (analysis_results self)
                     (failed_requests self ++ [mkFailureRecord symbol name error])
                     (trace self) in
        (self, Ok ())
    end in
  match after_fetch with
  | (self, Raise e) => (self, Some e)
  | (self, Ok _) =>
      (* Delay between requests *)
      if (i <? total_companies)%nat
      then (record_event (Sleep delay) self, None)
      else (self, None)
  end.

Fixpoint analyze_loop (net : CSE_API.info_network) (clock : nat -> string)
    (delay : Q) (total_companies i : nat) (companies : list company)
    (self : analyzer) : analyzer * option exn :=
  match companies with
  | [] => (self, None)
  | company :: rest =>
      match analyze_one net clock delay total_companies i company self with
      | (self, Some e) => (self, Some e)
      | (self, None) => analyze_loop net clock delay total_companies (S i) rest self
      end
  end.

(** [xs[:limit]] *)
Definition slice_to {A} (xs : list A) (limit : Z) : list A :=
  if (limit <? 0)%Z
  then take (Z.to_nat (Z.of_nat (length xs) + limit)) xs
  else take (Z.to_nat limit) xs.

Definition analyze_companies (net : CSE_API.info_network) (clock : nat -> string)
    (self : analyzer) (limit : option Z) (delay : Q) : analyzer * option exn :=
  match company_data self with
  | [] =>
      (mkAnalyzer (company_data self) (analysis_results self) (failed_requests self) [],
       None)
  | _ :: _ =>
      let companies_to_analyze :=
        match limit with
        | Some n => if (n =? 0)%Z then company_data self else slice_to (company_data self) n
        | None => company_data self
        end in
      let total_companies := length companies_to_analyze in
      analyze_loop net clock delay total_companies 1 companies_to_analyze
                   (mkAnalyzer (company_data self) (analysis_results self)
                               (failed_requests self) [])
  end.

(** ** The dataframe built from [analysis_results] *)

(** A cell of the frame or a value of a record dict.  [NaN] stands for both
    [NaN] and [None]. *)
Inductive cell :=
  | NaN
  | Num (q : Q)
  | Str (s : string)
  | Bool (b : bool)
  | Obj (d : company).

Definition num_cell (v : pynum) : cell :=
  match v with
  | Some q => Num q
  | None => NaN
  end.

Definition str_cell (v : option string) : cell :=
  match v with
  | Some s => Str s
  | None => NaN
  end.

Definition base_items (b : Base.t) : list (string * cell) :=
  [ ("security_id", num_cell (Base.security_id b));
    ("symbol", str_cell (Base.symbol b));
    ("name", str_cell (Base.name b));
    ("isin", str_cell (Base.isin b));
    ("issue_date", str_cell (Base.issue_date b));
    ("par_value", num_cell (Base.par_value b));
    ("last_traded_price", num_cell (Base.last_traded_price b));
    ("previous_close", num_cell (Base.previous_close b));
    ("change", num_cell (Base.change b));
    ("change_percentage", num_cell (Base.change_percentage b));
    ("today_high", num_cell (Base.today_high b));
    ("today_low", num_cell (Base.today_low b));
    ("ytd_high", num_cell (Base.ytd_high b));
    ("ytd_low", num_cell (Base.ytd_low b));
    ("p12_high", num_cell (Base.p12_high b));
    ("p12_low", num_cell (Base.p12_low b));
    ("all_time_high", num_cell (Base.all_time_high b));
    ("all_time_low", num_cell (Base.all_time_low b));
    ("quantity_issued", num_cell (Base.quantity_issued b));
    ("today_volume", num_cell (Base.today_volume b));
    ("today_turnover", num_cell (Base.today_turnover b));
    ("ytd_volume", num_cell (Base.ytd_volume b));
    ("ytd_turnover", num_cell (Base.ytd_turnover b));
    ("p12_volume", num_cell (Base.p12_volume b));
    ("market_cap", num_cell (Base.market_cap b));
    ("market_cap_percentage", num_cell (Base.market_cap_percentage b));
    ("foreign_holdings", num_cell (Base.foreign_holdings b));
    ("foreign_percentage", num_cell (Base.foreign_percentage b));
    ("tri_asi_beta", num_cell (Base.tri_asi_beta b));
    ("spsl_beta", num_cell (Base.spsl_beta b));
    ("beta_period", str_cell (Base.beta_period b));
    ("beta_quarter", str_cell (Base.beta_quarter b));
    ("has_logo", Bool (Base.has_logo b));
    ("logo_path", str_cell (Base.logo_path b));
    ("analysis_timestamp", Str (Base.analysis_timestamp b)) ].

(** A metric contributes an item only when its key was assigned. *)
Definition metric_item {A} (k : string) (f : A -> cell) (v : option A)
  : list (string * cell) :=
  match v with
  | Some x => [(k, f x)]
  | None => []
  end.

Definition metric_items (m : Metrics) : list (string * cell) :=
  metric_item "price_change_pct" Num (price_change_pct m) ++
  metric_item "ytd_volatility" Num (ytd_volatility m) ++
  metric_item "position_in_ytd_range" Num (position_in_ytd_range m) ++
  metric_item "p12_volatility" Num (p12_volatility m) ++
  metric_item "position_in_p12_range" Num (position_in_p12_range m) ++
  metric_item "book_value_per_share" Num (book_value_per_share m) ++
  metric_item "avg_price_ytd" Num (avg_price_ytd m) ++
  metric_item "price_vs_ytd_avg" Num (price_vs_ytd_avg m) ++
  metric_item "risk_category" (fun c => Str (risk_label c)) (risk_category m).

(** The items of a record dict, in insertion order. *)
Definition items (a : CompanyAnalysis) : list (string * cell) :=
  match fields a with
  | Empty => []
  | Extracted b m => base_items b ++ metric_items m
  end ++
  match source_data a with
  | Some c => [("source_data", Obj c)]
  | None => []
  end.

Definition keys (a : CompanyAnalysis) : list string := (items a).*1.

Fixpoint assoc (k : string) (kvs : list (string * cell)) : option cell :=
  match kvs with
  | [] => None
  | (k', v) :: rest => if String.eqb k k' then Some v else assoc k rest
  end.

(** The cell of row [a] in column [c]: a key the record lacks gives [NaN]. *)
Definition cell_at (a : CompanyAnalysis) (c : string) : cell :=
  default NaN (assoc c (items a)).

(** The numeric reading of a cell.  The aggregation reads numerically only
    columns whose cells are numbers or [NaN]. *)
Definition numeric (v : cell) : pynum :=
  match v with
  | Num q => Some q
  | _ => None
  end.

(** A frame: its column labels and its rows.  Selecting rows keeps the
    columns. *)
Record DataFrame := mkDataFrame {
  columns : list string;
  rows : list CompanyAnalysis
}.

(** [pd.DataFrame(records)]: the columns are the union of the keys. *)
Definition pd_DataFrame (records : list CompanyAnalysis) : DataFrame :=
  mkDataFrame (remove_dups (concat (keys <$> records))) records.

(** [df[c]] read as numbers; [KeyError] when the frame has no such column. *)
Definition col (df : DataFrame) (c : string) : result (CompanyAnalysis -> pynum) :=
  if bool_decide (c ∈ columns df)
  then Ok (fun r => numeric (cell_at r c))
  else Raise (KeyError c).

(** [df[mask]] *)
Definition df_filter (mask : CompanyAnalysis -> bool) (df : DataFrame) : DataFrame :=
  mkDataFrame (columns df) (List.filter mask (rows df)).

(** [len(df[mask])] *)
Definition count (mask : CompanyAnalysis -> bool) (df : DataFrame) : nat :=
  length (List.filter mask (rows df)).

(** [df.empty] *)
Definition df_empty (df : DataFrame) : bool :=
  match rows df, columns df with
  | [], _ => true
  | _, [] => true
  | _, _ => false
  end.

(** [c in df.columns] *)
Definition has_column (df : DataFrame) (c : string) : bool :=
  bool_decide (c ∈ columns df).

(** The values of a column over the rows. *)
Definition series (f : CompanyAnalysis -> pynum) (df : DataFrame) : list pynum :=
  f <$> rows df.

(** *** Element-wise comparisons: [NaN] compares false *)

Definition notna (v : pynum) : bool := bool_decide (is_Some v).

Definition cmp_gt (a b : pynum) : bool :=
  match a, b with
  | Some x, Some y => Qltb y x
  | _, _ => false
  end.

Definition cmp_lt (a b : pynum) : bool :=
  match a, b with
  | Some x, Some y => Qltb x y
  | _, _ => false
  end.

Definition cmp_ge (a b : pynum) : bool :=
  match a, b with
  | Some x, Some y => Qle_bool y x
  | _, _ => false
  end.

Definition cmp_le (a b : pynum) : bool :=
  match a, b with
  | Some x, Some y => Qle_bool x y
  | _, _ => false
  end.

Definition cmp_eq (a b : pynum) : bool :=
  match a, b with
  | Some x, Some y => Qeq_bool x y
  | _, _ => false
  end.

(** *** Sorting *)

(** The order of [sort_values]: by key, ascending or descending, with [NaN]
    keys last.  pandas' default sort leaves the order of rows with equal keys
    unspecified; the model keeps their relative order. *)
Definition key_le (ascending : bool) (a b : pynum) : bool :=
  match a, b with
  | Some x, Some y => if ascending then Qle_bool x y else Qle_bool y x
  | Some _, None => true
  | None, Some _ => false
  | None, None => true
  end.

Fixpoint insert_sorted {A} (key : A -> pynum) (ascending : bool) (x : A) (l : list A)
  : list A :=
  match l with
  | [] => [x]
  | y :: rest =>
      if key_le ascending (key x) (key y)
      then x :: y :: rest
      else y :: insert_sorted key ascending x rest
  end.

Definition sort_values {A} (key : A -> pynum) (ascending : bool) (l : list A) : list A :=
  foldr (insert_sorted key ascending) [] l.

(** *** Reductions of a column: [NaN] is skipped *)

Definition dropna (s : list pynum) : list Q := omap (fun v => v) s.

Definition Qsum (xs : list Q) : Q := foldr Qplus 0 xs.

Definition series_sum (s : list pynum) : Q := Qsum (dropna s).

Definition series_mean (s : list pynum) : pynum :=
  match dropna s with
  | [] => None
  | xs => Some (Qsum xs / inject_Z (Z.of_nat (length xs)))
  end.

Definition series_max (s : list pynum) : pynum :=
  match dropna s with
  | [] => None
  | x :: xs => Some (foldr (fun a b => if Qle_bool a b then b else a) x xs)
  end.

Definition series_min (s : list pynum) : pynum :=
  match dropna s with
  | [] => None
  | x :: xs => Some (foldr (fun a b => if Qle_bool a b then a else b) x xs)
  end.

(** [quantile(q)] with linear interpolation between the two nearest ranks. *)
Definition series_quantile (s : list pynum) (q : Q) : pynum :=
  match sort_values Some true (dropna s) with
  | [] => None
  | x :: xs =>
      let sorted := x :: xs in
      let n := length sorted in
      let pos := inject_Z (Z.of_nat (n - 1)) * q in
      let lo := Z.to_nat (Qfloor pos) in
      let hi := Nat.min (lo + 1) (n - 1) in
      let frac := pos - inject_Z (Qfloor pos) in
      let a := nth lo sorted x in
      let b := nth hi sorted x in
      Some (a + (b - a) * frac)
  end.

(** [median()]: the middle value, or the mean of the two middle values. *)
Definition series_median (s : list pynum) : pynum :=
  match sort_values Some true (dropna s) with
  | [] => None
  | x :: xs =>
      let sorted := x :: xs in
      let n := length sorted in
      if Nat.even n
      then Some ((nth (n / 2 - 1) sorted x + nth (n / 2) sorted x) / 2)
      else Some (nth (n / 2) sorted x)
  end.

(** [df[cols]]: [KeyError] when a label is not a column. *)
Definition select_columns (df : DataFrame) (cols : list string) : result DataFrame :=
  match List.find (fun c => negb (has_column df c)) cols with
  | Some c => Raise (KeyError c)
  | None => Ok (mkDataFrame cols (rows df))
  end.

(** [df.head(n)] *)
Definition head (n : nat) (df : DataFrame) : DataFrame :=
  mkDataFrame (columns df) (take n (rows df)).

(** [df.to_dict('records')]: one dict per row, keyed by the columns. *)
Definition to_dict_records (df : DataFrame) : list (list (string * cell)) :=
  (fun r => (fun c => (c, cell_at r c)) <$> columns df) <$> rows df.

(** [df.sort_values(c, ascending=...)] *)
Definition df_sort_values (df : DataFrame) (c : string) (ascending : bool)
  : result DataFrame :=
  key ← col df c;
  mret (mkDataFrame (columns df) (sort_values key ascending (rows df))).

(** ** Aggregation and ranking *)

Record MarketOverview := mkMarketOverview {
  total_market_capitalization : Q;
  average_market_cap : pynum;
  median_market_cap : pynum;
  large_cap : nat;
  mid_cap : nat;
  small_cap : nat;
  average_price : pynum;
  median_price : pynum;
  highest_price : pynum;
  lowest_price : pynum
}.

(** The result is [None] for the empty dict [{}]. *)
Definition _analyze_market_overview (df : DataFrame) : result (option MarketOverview) :=
  if df_empty df then mret None else
  market_cap ← col df "market_cap";
  last_traded_price ← col df "last_traded_price";
  let caps := series market_cap df in
  let prices := series last_traded_price df in
  mret (Some
    {| total_market_capitalization := series_sum caps;
       average_market_cap := series_mean caps;
       median_market_cap := series_median caps;
       large_cap := count (fun r => cmp_gt (market_cap r) (series_quantile caps 0.9)) df;
       mid_cap := count (fun r => cmp_gt (market_cap r) (series_quantile caps 0.3) &&
                                  cmp_le (market_cap r) (series_quantile caps 0.9)) df;
       small_cap := count (fun r => cmp_le (market_cap r) (series_quantile caps 0.3)) df;
       average_price := series_mean prices;
       median_price := series_median prices;
       highest_price := series_max prices;
       lowest_price := series_min prices |}).

Record ValuationAnalysis := mkValuationAnalysis {
  near_highs : nat;
  mid_range : nat;
  near_lows : nat;
  average_position : pynum;
  high_volatility : nat;
  medium_volatility : nat;
  low_volatility : nat
}.

Definition _analyze_valuations (df : DataFrame) : result (option ValuationAnalysis) :=
  if df_empty df then mret None else
  position ← col df "position_in_ytd_range";
  let df_with_ytd := df_filter (fun r => notna (position r)) df in
  if df_empty df_with_ytd then mret None else
  volatility ←
    (if has_column df "ytd_volatility"
     then Some <$> col df "ytd_volatility" else mret None);
  let count_volatility mask :=
    match volatility with
    | Some v => count (fun r => mask (v r)) df
    | None => 0%nat
    end in
  mret (Some
    {| near_highs := count (fun r => cmp_gt (position r) (Some 80)) df_with_ytd;
       mid_range := count (fun r => cmp_ge (position r) (Some 20) &&
                                    cmp_le (position r) (Some 80)) df_with_ytd;
       near_lows := count (fun r => cmp_lt (position r) (Some 20)) df_with_ytd;
       average_position := series_mean (series position df_with_ytd);
       high_volatility := count_volatility (fun v => cmp_gt v (Some 100));
       medium_volatility :=
         count_volatility (fun v => cmp_ge v (Some 50) && cmp_le v (Some 100));
       low_volatility := count_volatility (fun v => cmp_lt v (Some 50)) |}).

Record BetaProfile := mkBetaProfile {
  high_risk : nat;
  medium_risk : nat;
  low_risk : nat;
  very_low_risk : nat;
  average_beta : pynum;
  median_beta : pynum;
  highest_beta : pynum;
  lowest_beta : pynum
}.

Inductive RiskAnalysis :=
  | RiskEmpty
  | RiskNote (note : string)
  | RiskProfile (p : BetaProfile).

Definition _analyze_risk_profile (df : DataFrame) : result RiskAnalysis :=
  if df_empty df then mret RiskEmpty else
  beta ← col df "tri_asi_beta";
  let df_with_beta := df_filter (fun r => notna (beta r)) df in
  if df_empty df_with_beta then mret (RiskNote "No beta data available") else
  let betas := series beta df_with_beta in
  mret (RiskProfile
    {| high_risk := count (fun r => cmp_gt (beta r) (Some 1.5)) df_with_beta;
       medium_risk := count (fun r => cmp_gt (beta r) (Some 1.0) &&
                                      cmp_le (beta r) (Some 1.5)) df_with_beta;
       low_risk := count (fun r => cmp_gt (beta r) (Some 0.5) &&
                                   cmp_le (beta r) (Some 1.0)) df_with_beta;
       very_low_risk := count (fun r => cmp_le (beta r) (Some 0.5)) df_with_beta;
       average_beta := series_mean betas;
       median_beta := series_median betas;
       highest_beta := series_max betas;
       lowest_beta := series_min betas |}).

Record DailyPerformance := mkDailyPerformance {
  gainers : nat;
  losers : nat;
  unchanged : nat;
  average_change : pynum;
  best_performer : pynum;
  worst_performer : pynum
}.

Definition _analyze_performance (df : DataFrame) : result (option DailyPerformance) :=
  if df_empty df then mret None else
  change_percentage ← col df "change_percentage";
  let df_with_change := df_filter (fun r => notna (change_percentage r)) df in
  let changes := series change_percentage df_with_change in
  mret (Some
    {| gainers := count (fun r => cmp_gt (change_percentage r) (Some 0)) df_with_change;
       losers := count (fun r => cmp_lt (change_percentage r) (Some 0)) df_with_change;
       unchanged := count (fun r => cmp_eq (change_percentage r) (Some 0)) df_with_change;
       average_change := series_mean changes;
       best_performer := series_max changes;
       worst_performer := series_min changes |}).

Record VolumeAnalysis := mkVolumeAnalysis {
  total_volume_today : Q;
  average_volume : pynum;
  high_volume_stocks : nat;
  low_volume_stocks : nat;
  total_turnover_today : Q;
  companies_with_turnover : nat
}.

Inductive LiquidityAnalysis :=
  | LiquidityEmpty
  | LiquidityNote (note : string)
  | Liquidity (v : VolumeAnalysis).

Definition _analyze_liquidity (df : DataFrame) : result LiquidityAnalysis :=
  if df_empty df then mret LiquidityEmpty else
  today_volume ← col df "today_volume";
  let df_with_volume :=
    df_filter (fun r => notna (today_volume r) && cmp_gt (today_volume r) (Some 0)) df in
  if df_empty df_with_volume then mret (LiquidityNote "No volume data available") else
  let volumes := series today_volume df_with_volume in
  today_turnover ←
    (if has_column df_with_volume "today_turnover"
     then Some <$> col df_with_volume "today_turnover" else mret None);
  mret (Liquidity
    {| total_volume_today := series_sum volumes;
       average_volume := series_mean volumes;
       high_volume_stocks :=
         count (fun r => cmp_gt (today_volume r) (series_quantile volumes 0.8))
               df_with_volume;
       low_volume_stocks :=
         count (fun r => cmp_lt (today_volume r) (series_quantile volumes 0.2))
               df_with_volume;
       total_turnover_today :=
         match today_turnover with
         | Some t => series_sum (series t df_with_volume)
         | None => 0
         end;
       companies_with_turnover :=
         match today_turnover with
         | Some t => count (fun r => notna (t r) && cmp_gt (t r) (Some 0)) df_with_volume
         | None => 0%nat
         end |}).

(** A ranked entry: the dict of one row restricted to the listed columns. *)
Abbreviation entry := (list (string * cell)).

(** The [opportunities] dict: a list is [None] when its key was not set. *)
Record Opportunities := mkOpportunities {
  value_opportunities : option (list entry);
  growth_opportunities : option (list entry);
  stable_opportunities : option (list entry)
}.

(** [sorted_df[cols].head(10).to_dict('records')] *)
Definition top10 (df : DataFrame) (cols : list string) : result (list entry) :=
  selected ← select_columns df cols;
  mret (to_dict_records (head 10 selected)).

Definition _identify_opportunities (df : DataFrame) : result Opportunities :=
  if df_empty df then mret (mkOpportunities None None None) else
  (* Value opportunities (near YTD lows) *)
  position ← col df "position_in_ytd_range";
  let df_with_ytd := df_filter (fun r => notna (position r)) df in
  value ←
    (if df_empty df_with_ytd then mret None else
     let value_opportunities :=
       df_filter (fun r => cmp_lt (position r) (Some 25)) df_with_ytd in
     value_opportunities ← df_sort_values value_opportunities "position_in_ytd_range" true;
     Some <$> top10 value_opportunities
       ["symbol"; "name"; "last_traded_price"; "position_in_ytd_range"; "market_cap"]);
  (* Growth opportunities (strong recent performance with good volume) *)
  change_percentage ← col df "change_percentage";
  today_volume ← col df "today_volume";
  let df_growth :=
    df_filter (fun r => cmp_gt (change_percentage r) (Some 5) &&
                        notna (today_volume r) &&
                        cmp_gt (today_volume r) (Some 0)) df in
  growth ←
    (if df_empty df_growth then mret None else
     growth_opportunities ← df_sort_values df_growth "change_percentage" false;
     Some <$> top10 growth_opportunities
       ["symbol"; "name"; "last_traded_price"; "change_percentage"; "today_volume"]);
  (* Low risk, stable opportunities *)
  tri_asi_beta ← col df "tri_asi_beta";
  market_cap ← col df "market_cap";
  let median_cap := series_median (series market_cap df) in
  let df_stable :=
    df_filter (fun r => notna (tri_asi_beta r) &&
                        cmp_lt (tri_asi_beta r) (Some 1.0) &&
                        cmp_gt (market_cap r) median_cap) df in
  stable ←
    (if df_empty df_stable then mret None else
     stable_opportunities ← df_sort_values df_stable "tri_asi_beta" true;
     Some <$> top10 stable_opportunities
       ["symbol"; "name"; "last_traded_price"; "tri_asi_beta"; "market_cap"]);
  mret (mkOpportunities value growth stable).

Record Summary := mkSummary {
  total_companies : nat;
  active_companies : nat;
  inactive_companies : nat;
  analysis_date : string
}.

Record Analysis := mkAnalysis {
  summary_section : Summary;
  market_overview : option MarketOverview;
  valuation_analysis : option ValuationAnalysis;
  risk_analysis : RiskAnalysis;
  performance_analysis : option DailyPerformance;
  liquidity_analysis : LiquidityAnalysis;
  investment_opportunities : Opportunities
}.

(** [{"error": ...}] or the analysis dict. *)
Inductive Report :=
  | NoData (error : string)
  | Full (analysis : Analysis).

(** The rows with valid price data:
    [df[(df['last_traded_price'].notna()) & (df['last_traded_price'] > 0)]]. *)
Definition active_subset (df : DataFrame) : result DataFrame :=
  last_traded_price ← col df "last_traded_price";
  mret (df_filter (fun r => notna (last_traded_price r) &&
                            cmp_gt (last_traded_price r) (Some 0)) df).

(** [now] is the reading of the clock, [datetime.now().strftime(...)]. *)
Definition generate_investment_analysis (now : string)
    (analysis_results : list CompanyAnalysis) : result Report :=
  match analysis_results with
  | [] => mret (NoData "No data to analyze")
  | _ :: _ =>
      let df := pd_DataFrame analysis_results in
      df_active ← active_subset df;
      let summary :=
        {| total_companies := length (rows df);
           active_companies := length (rows df_active);
           inactive_companies := length (rows df) - length (rows df_active);
           analysis_date := now |} in
      market ← _analyze_market_overview df_active;
      valuation ← _analyze_valuations df_active;
      risk ← _analyze_risk_profile df_active;
      performance ← _analyze_performance df_active;
      liquidity ← _analyze_liquidity df_active;
      opportunities ← _identify_opportunities df_active;
      mret (Full (mkAnalysis summary market valuation risk performance liquidity
                             opportunities))
  end.

(** ** Spacing of calls in a trace *)

(** [spaced after_request t]: no request of [t] directly follows another
    request, where [after_request] tells whether a request precedes [t]. *)
Fixpoint spaced (after_request : bool) (t : list event) : bool :=
  match t with
  | [] => true
  | Request _ _ :: rest => negb after_request && spaced true rest
  | Sleep _ :: rest => spaced false rest
  end.

(** A delay step separates every two consecutive calls. *)
Definition delay_between_calls (t : list event) : bool := spaced false t.

(** Whether a request is the last event of [t] (or precedes an empty [t]). *)
Definition ends_in_request (after_request : bool) (t : list event) : bool :=
  match last t with
  | Some (Request _ _) => true
  | Some (Sleep _) => false
  | None => after_request
  end.

(** The outcome of the [i]-th fetch of a run over [companies]: the failure
    record it leaves, or the analysis it appends. *)
Definition fetch_failure (net : CSE_API.info_network) (i : nat) (c : company)
  : option FailureRecord :=
  match get_company_summary net i (dict_get c "symbol") with
  | SummaryFailed error =>
      Some (mkFailureRecord (dict_get c "symbol")
                            (dict_get_default c "name" (VStr "Unknown")) error)
  | SummaryOk _ => None
  end.

Definition fetch_analysis (net : CSE_API.info_network) (clock : nat -> string)
    (i : nat) (c : company) : option CompanyAnalysis :=
  match get_company_summary net i (dict_get c "symbol") with
  | SummaryOk data =>
      Some (mkCompanyAnalysis (extract_comprehensive_data data (clock i)) (Some c))
  | SummaryFailed _ => None
  end.

(** [enumerate(xs, start)] *)
Fixpoint enumerate {A} (start : nat) (xs : list A) : list (nat * A) :=
  match xs with
  | [] => []
  | x :: rest => (start, x) :: enumerate (S start) rest
  end.

(** ** Sample inputs *)

Module Sample.

Definition entity (symbol name : string) : company :=
  <["symbol" := VStr symbol]> {["name" := VStr name]}.

Definition entities : list company :=
  [entity "AAA.N0000" "Alpha PLC"; entity "BBB.N0000" "Beta PLC";
   entity "CCC.N0000" "Gamma PLC"].

Definition self : analyzer := mkAnalyzer entities [] [] [].

Definition clock (i : nat) : string := "2024-01-01T00:00:00".

(** [{"lastTradedPrice": price, "changePercentage": change}] *)
Definition quote (price : Q) (change : field Q) : SymbolInfo.t :=
  SymbolInfo.mk Missing Missing Missing Missing Missing Missing (Val price) Missing
    Missing change Missing Missing Missing Missing Missing Missing Missing Missing
    Missing Missing Missing Missing Missing Missing Missing Missing Missing Missing.

(** Entity 2 times out; entities 1 and 3 answer with a quote that carries its
    change percentage. *)
Definition net_second_fails : CSE_API.info_network := fun i _ =>
  match i with
  | 2%nat => CSE_API.HttpRequestException "Read timed out." None
  | _ => CSE_API.HttpOk 200 (CSE_API.Object (Val (quote 10.5 (Val 1.2))) Missing Missing)
  end.

(** As above, but the quote of entity 1 has no change percentage. *)
Definition net_no_change_pct : CSE_API.info_network := fun i _ =>
  match i with
  | 1%nat => CSE_API.HttpOk 200 (CSE_API.Object (Val (quote 10.5 Missing)) Missing Missing)
  | 2%nat => CSE_API.HttpRequestException "Read timed out." None
  | _ => CSE_API.HttpOk 200 (CSE_API.Object (Val (quote 10.5 (Val 1.2))) Missing Missing)
  end.

(** Every letter of the roster is answered with an empty list. *)
Definition roster_all_empty : CSE_API.roster_network := fun _ =>
  CSE_API.HttpOk 200 (CSE_API.BodyList []).

(** Every request of the roster fails. *)
Definition roster_all_fail : CSE_API.roster_network := fun _ =>
  CSE_API.HttpRequestException "Connection refused" None.

(** The analysis records of three quotes whose change percentages are 5.2,
    -1.0 and 0.0, each with a positive last price. *)
Definition changed (change : Q) : CompanyAnalysis :=
  mkCompanyAnalysis
    (extract_comprehensive_data
       (CSE_API.Object (Val (quote 10.5 (Val change))) Missing Missing) (clock 0))
    None.

Definition three_changes : list CompanyAnalysis :=
  [changed 5.2; changed (-1.0); changed 0.0].

(** [{"symbol": "LOW.N0000", "name": "Low PLC", "lastTradedPrice": 10,
      "ytdHiPrice": 100, "ytdLowPrice": 9}]: a price near its year-to-date
    low, and no market capitalisation. *)
Definition near_low : SymbolInfo.t :=
  SymbolInfo.mk Missing (Val "LOW.N0000") (Val "Low PLC") Missing Missing Missing
    (Val 10) Missing Missing Missing Missing Missing (Val 100) (Val 9) Missing Missing
    Missing Missing Missing Missing Missing Missing Missing Missing Missing Missing
    Missing Missing.

Definition near_low_records : list CompanyAnalysis :=
  [mkCompanyAnalysis
     (extract_comprehensive_data (CSE_API.Object (Val near_low) Missing Missing) (clock 0))
     None].

(** A listing with its price, change percentage, year-to-date high and low,
    market capitalisation and volume of the day. *)
Definition listing (symbol : string) (price change ytd_high ytd_low cap volume : Q)
  : SymbolInfo.t :=
  SymbolInfo.mk Missing (Val symbol) (Val symbol) Missing Missing Missing
    (Val price) Missing Missing (Val change) Missing Missing (Val ytd_high) (Val ytd_low)
    Missing Missing Missing Missing Missing (Val volume) Missing Missing Missing Missing
    (Val cap) Missing Missing Missing.

Definition analysed (si : SymbolInfo.t) (beta : field Q) : CompanyAnalysis :=
  mkCompanyAnalysis
    (extract_comprehensive_data
       (CSE_API.Object (Val si) (Val (BetaInfo.mk beta Missing Missing Missing)) Missing)
       (clock 0))
    None.

(** Five listings: one with a zero beta, one without volume, one that is
    not traded (price 0), and two more. *)
Definition market : list CompanyAnalysis :=
  [analysed (listing "AAA.N0000" 10 6.0 100 9 5000 1000) (Val 0);
   analysed (listing "BBB.N0000" 50 (-2.0) 60 20 20000 0) (Val 1.2);
   analysed (listing "CCC.N0000" 0 0 40 30 1000 0) (Val 0.7);
   analysed (listing "DDD.N0000" 30 0 31 10 25000 500) (Val 0.4);
   analysed (listing "EEE.N0000" 80 7.5 200 70 30000 300) (Val 1.8)].

(** A record whose extraction failed, and a record that is not traded. *)
Definition failed_extraction : CompanyAnalysis :=
  mkCompanyAnalysis (extract_comprehensive_data CSE_API.NotAnObject (clock 0))
                    (Some (entity "AAA.N0000" "Alpha PLC")).

Definition not_traded : CompanyAnalysis :=
  analysed (listing "CCC.N0000" 0 0 40 30 1000 0) (Val 0.7).

End Sample.

(** ** The report apart from its time stamp *)

(** The report with [summary.analysis_date] replaced by [date]. *)
Definition with_analysis_date (date : string) (r : Report) : Report :=
  match r with
  | NoData error => NoData error
  | Full a =>
      Full (mkAnalysis
              (mkSummary (total_companies (summary_section a))
                         (active_companies (summary_section a))
                         (inactive_companies (summary_section a))
                         date)
              (market_overview a) (valuation_analysis a) (risk_analysis a)
              (performance_analysis a) (liquidity_analysis a)
              (investment_opportunities a))
  end.

(** ** Recommendations by investment style *)

(** [str.lower] on ASCII text. *)
Definition lower_ascii (a : ascii) : ascii :=
  let n := nat_of_ascii a in
  if (65 <=? n)%nat && (n <=? 90)%nat then ascii_of_nat (n + 32) else a.

Fixpoint lower (s : string) : string :=
  match s with
  | EmptyString => EmptyString
  | String a rest => String (lower_ascii a) (lower rest)
  end.

(** The [recommendations] dict: empty, or one list under the key of the
    style that was served. *)
Inductive Recommendations :=
  | NoRecommendations
  | Conservative (entries : list entry)
  | Aggressive (entries : list entry)
  | ValueStyle (entries : list entry)
  | Balanced (entries : list entry).

(** [filtered.sort_values(c, ascending=...).head(10)[cols].to_dict('records')] *)
Definition recommend (filtered : DataFrame) (c : string) (ascending : bool)
    (cols : list string) : result (list entry) :=
  sorted ← df_sort_values filtered c ascending;
  selected ← select_columns (head 10 sorted) cols;
  mret (to_dict_records selected).

Definition get_investment_recommendations
    (analysis_results : list CompanyAnalysis) (investment_style : string)
  : result Recommendations :=
  match analysis_results with
  | [] => mret NoRecommendations
  | _ :: _ =>
      let df := pd_DataFrame analysis_results in
      df_active ← active_subset df;
      if String.eqb (lower investment_style) "conservative" then
        (* Low beta, stable companies, good market cap *)
        tri_asi_beta ← col df_active "tri_asi_beta";
        market_cap ← col df_active "market_cap";
        let median_cap := series_median (series market_cap df_active) in
        let conservative :=
          df_filter (fun r => notna (tri_asi_beta r) &&
                              cmp_lt (tri_asi_beta r) (Some 1.0) &&
                              cmp_gt (market_cap r) median_cap) df_active in
        Conservative <$> recommend conservative "tri_asi_beta" true
          ["symbol"; "name"; "last_traded_price"; "tri_asi_beta"; "market_cap";
           "risk_category"]
      else if String.eqb (lower investment_style) "aggressive" then
        (* High beta, high growth potential *)
        tri_asi_beta ← col df_active "tri_asi_beta";
        let aggressive :=
          df_filter (fun r => notna (tri_asi_beta r) &&
                              cmp_gt (tri_asi_beta r) (Some 1.2)) df_active in
        Aggressive <$> recommend aggressive "change_percentage" false
          ["symbol"; "name"; "last_traded_price"; "tri_asi_beta"; "change_percentage";
           "risk_category"]
      else if String.eqb (lower investment_style) "value" then
        (* Near YTD lows, good fundamentals *)
        position ← col df_active "position_in_ytd_range";
        market_cap ← col df_active "market_cap";
        let value :=
          df_filter (fun r => notna (position r) &&
                              cmp_lt (position r) (Some 30) &&
                              cmp_gt (market_cap r) (Some 0)) df_active in
        ValueStyle <$> recommend value "position_in_ytd_range" true
          ["symbol"; "name"; "last_traded_price"; "position_in_ytd_range"; "ytd_high";
           "ytd_low"]
      else
        (* balanced: mix of different risk levels and opportunities *)
        tri_asi_beta ← col df_active "tri_asi_beta";
        let balanced :=
          df_filter (fun r => notna (tri_asi_beta r) &&
                              cmp_ge (tri_asi_beta r) (Some 0.5) &&
                              cmp_le (tri_asi_beta r) (Some 1.5)) df_active in
        Balanced <$> recommend balanced "market_cap" false
          ["symbol"; "name"; "last_traded_price"; "tri_asi_beta"; "market_cap";
           "change_percentage"]
  end.

(** The entries of a recommendation, whatever its style. *)
Definition recommended (r : Recommendations) : list entry :=
  match r with
  | NoRecommendations => []
  | Conservative es | Aggressive es | ValueStyle es | Balanced es => es
  end.

(** ** Counting the requests of a trace *)

Definition is_request (e : event) : bool :=
  match e with
  | Request _ _ => true
  | Sleep _ => false
  end.

Definition requests (t : list event) : list event := List.filter is_request t.

(** The companies a successful roster response contributes, and those a
    letter contributes over the network. *)
Definition roster_of_body (body : CSE_API.roster_body) : list company :=
  match body with
  | CSE_API.BodyObject (Val cs) => cs
  | CSE_API.BodyList cs => cs
  | _ => []
  end.

Definition roster_of_letter (net : CSE_API.roster_network) (letter : string)
  : list company :=
  match CSE_API.get_companies_by_alphabet net letter with
  | CSE_API.Success _ body => roster_of_body body
  | CSE_API.Failure _ _ => []
  end.

(** The numeric key of an entry, for stating the order of a ranked list. *)
Definition entry_key (c : string) (e : entry) : pynum :=
  numeric (default NaN (assoc c e)).

(** * Properties *)

(** ** Arithmetic helpers *)

Lemma Qltb_lt (x y : Q) : Qltb x y = true <-> x < y.
Proof.
  unfold Qltb. rewrite negb_true_iff, <- not_true_iff_false, Qle_bool_iff.
  split; [apply Qnot_le_lt | apply Qlt_not_le].
Qed.

Lemma Qltb_ge (x y : Q) : Qltb x y = false <-> y <= x.
Proof.
  unfold Qltb. rewrite negb_false_iff. apply Qle_bool_iff.
Qed.

Lemma truthy_Some (v : pynum) :
  truthy v = true <-> exists q, v = Some q /\ ~ q == 0.
Proof.
  destruct v as [q|]; simpl.
  - rewrite negb_true_iff. split.
    + intros H. exists q. split; [done|]. by apply Qeq_bool_neq.
    + intros (q' & [= <-] & Hq). apply not_true_iff_false.
      intros H. apply Hq. by apply Qeq_bool_eq.
  - split; [done|]. by intros (q & ? & _).
Qed.

Lemma Qeq_bool_false (x y : Q) : Qeq_bool x y = false <-> ~ x == y.
Proof.
  rewrite <- not_true_iff_false, Qeq_bool_iff. tauto.
Qed.

Lemma Qeq_bool_sub_zero (x y : Q) : Qeq_bool (x - y) 0 = Qeq_bool x y.
Proof.
  destruct (Qeq_bool x y) eqn:E.
  - apply Qeq_bool_iff in E. apply Qeq_bool_iff. rewrite E. ring.
  - apply Qeq_bool_false in E. apply Qeq_bool_false. intros H. apply E.
    rewrite <- (Qplus_0_l y), <- H. ring.
Qed.

(** ** The monad of results *)

Ltac res_simpl :=
  cbn [mbind mret fmap result_bind result_ret result_fmap fst snd].

Lemma bind_Ok {A B} (f : A -> result B) (a : A) : (Ok a ≫= f) = f a.
Proof. reflexivity. Qed.

Lemma bind_inv {A B} (f : A -> result B) (m : result A) (b : B) :
  (m ≫= f) = Ok b -> exists a, m = Ok a /\ f a = Ok b.
Proof. destruct m as [a|e]; [by exists a | discriminate]. Qed.

Lemma fmap_inv {A B} (f : A -> B) (m : result A) (b : B) :
  f <$> m = Ok b -> exists a, m = Ok a /\ b = f a.
Proof. destruct m as [a|e]; [intros [= <-]; by exists a | discriminate]. Qed.

(** ** Metric derivation never raises *)

Lemma pct_nonzero (x y z : Q) :
  ~ z == 0 -> pct (Some x) (Some y) (Some z) = Ok ((x - y) / z * 100).
Proof.
  intros Hz. unfold pct, div. res_simpl. cbn [num]. res_simpl.
  apply Qeq_bool_false in Hz. by rewrite Hz.
Qed.

Lemma price_change_metric_spec (last_price prev_close : pynum) :
  exists r, price_change_metric last_price prev_close = Ok r /\
    (truthy last_price && truthy prev_close = false -> r = None) /\
    (forall v, r = Some v ->
       exists l p, last_price = Some l /\ prev_close = Some p /\
                   ~ p == 0 /\ v = (l - p) / p * 100).
Proof.
  unfold price_change_metric.
  destruct (truthy last_price && truthy prev_close) eqn:E.
  - apply andb_true_iff in E as [Hl Hp].
    apply truthy_Some in Hl as (l & -> & Hl), Hp as (p & -> & Hp).
    rewrite pct_nonzero by done. res_simpl.
    eexists. split; [done|]. split; [done|].
    intros v [= <-]. by exists l, p.
  - exists None. by repeat split.
Qed.

Lemma range_metrics_spec (high low last_price : pynum) :
  exists vol pos, range_metrics high low last_price = Ok (vol, pos) /\
    (truthy high && truthy low && ne high low = false -> vol = None /\ pos = None) /\
    (forall h l, high = Some h -> low = Some l -> ~ h == 0 -> ~ l == 0 -> ~ h == l ->
       vol = Some ((h - l) / l * 100) /\
       (forall p, last_price = Some p -> ~ p == 0 ->
                  pos = Some ((p - l) / (h - l) * 100))).
Proof.
  unfold range_metrics.
  destruct (truthy high && truthy low && ne high low) eqn:E.
  - apply andb_true_iff in E as [E Hne]. apply andb_true_iff in E as [Hh Hl].
    apply truthy_Some in Hh as (h & -> & Hh), Hl as (l & -> & Hl).
    cbn [ne] in Hne. apply negb_true_iff, Qeq_bool_false in Hne.
    rewrite pct_nonzero by done. res_simpl.
    assert (Hd : ~ h - l == 0).
    { intros H. apply Hne. rewrite <- (Qplus_0_l l), <- H. ring. }
    destruct (truthy last_price) eqn:Ep.
    + apply truthy_Some in Ep as (p & -> & Hp).
      cbn [num]. res_simpl. rewrite pct_nonzero by done. res_simpl.
      do 2 eexists. split; [done|]. split; [done|].
      intros h' l' [= <-] [= <-] _ _ _. split; [done|]. by intros p' [= <-] _.
    + do 2 eexists. split; [done|]. split; [done|].
      intros h' l' [= <-] [= <-] _ _ _. split; [done|].
      intros p -> Hp. exfalso. cbn [truthy] in Ep.
      apply negb_false_iff, Qeq_bool_iff in Ep. done.
  - exists None, None. split; [done|]. split; [done|].
    intros h l -> -> Hh Hl Hhl. exfalso.
    apply Qeq_bool_false in Hh, Hl, Hhl. cbn [truthy ne] in E.
    by rewrite Hh, Hl, Hhl in E.
Qed.

Lemma book_value_metric_total (market_cap quantity_issued : pynum) :
  exists r, book_value_metric market_cap quantity_issued = Ok r.
Proof.
  unfold book_value_metric.
  destruct (truthy market_cap && truthy quantity_issued) eqn:E; [|by eexists].
  apply andb_true_iff in E as [Hc Hn].
  apply truthy_Some in Hc as (c & -> & Hc), Hn as (n & -> & Hn).
  cbn [num]. res_simpl. unfold div.
  apply Qeq_bool_false in Hn. rewrite Hn. by eexists.
Qed.

Lemma liquidity_metrics_total (ytd_volume ytd_turnover last_price : pynum) :
  exists r, liquidity_metrics ytd_volume ytd_turnover last_price = Ok r.
Proof.
  unfold liquidity_metrics.
  destruct (truthy ytd_volume && truthy ytd_turnover) eqn:E; [|by eexists].
  apply andb_true_iff in E as [Hv Ht].
  apply truthy_Some in Hv as (v & -> & Hv), Ht as (t & -> & Ht).
  cbn [num]. res_simpl. unfold div at 1.
  apply Qeq_bool_false in Hv. rewrite Hv. res_simpl.
  destruct (truthy last_price && truthy (Some (t / v))) eqn:E; [|by eexists].
  apply andb_true_iff in E as [Hp Ha].
  apply truthy_Some in Hp as (p & -> & Hp), Ha as (a & [= <-] & Ha).
  rewrite pct_nonzero by done. by eexists.
Qed.

Lemma risk_of_beta_spec (beta_asi : pynum) :
  risk_of_beta beta_asi =
  Ok (match beta_asi with
      | None => None
      | Some b =>
          if Qeq_bool b 0 then None
          else if Qltb 1.5 b then Some HighRisk
          else if Qltb 1.0 b then Some MediumRisk
          else if Qltb 0.5 b then Some LowRisk
          else Some VeryLowRisk
      end).
Proof.
  unfold risk_of_beta. destruct beta_asi as [b|]; [|done].
  cbn [truthy num]. destruct (Qeq_bool b 0); [done|]. cbn [negb]. res_simpl.
  by repeat case_match.
Qed.

(** The derived metrics are always returned: every division is guarded by the
    truthiness of its divisor, every arithmetic use by that of its operands. *)
Lemma calculate_investment_metrics_spec (si : SymbolInfo.t) (bi : BetaInfo.t) :
  exists m, calculate_investment_metrics si bi = Ok m /\
    price_change_metric (get_default (SymbolInfo.lastTradedPrice si) 0)
                        (get_default (SymbolInfo.previousClose si) 0)
      = Ok (price_change_pct m) /\
    range_metrics (get_default (SymbolInfo.ytdHiPrice si) 0)
                  (get_default (SymbolInfo.ytdLowPrice si) 0)
                  (get_default (SymbolInfo.lastTradedPrice si) 0)
      = Ok (ytd_volatility m, position_in_ytd_range m) /\
    risk_of_beta (get (BetaInfo.triASIBetaValue bi)) = Ok (risk_category m).
Proof.
  unfold calculate_investment_metrics.
  destruct (price_change_metric_spec
              (get_default (SymbolInfo.lastTradedPrice si) 0)
              (get_default (SymbolInfo.previousClose si) 0)) as (r1 & -> & _).
  destruct (range_metrics_spec
              (get_default (SymbolInfo.ytdHiPrice si) 0)
              (get_default (SymbolInfo.ytdLowPrice si) 0)
              (get_default (SymbolInfo.lastTradedPrice si) 0)) as (v1 & p1 & -> & _).
  destruct (range_metrics_spec
              (get_default (SymbolInfo.p12HiPrice si) 0)
              (get_default (SymbolInfo.p12LowPrice si) 0)
              (get_default (SymbolInfo.lastTradedPrice si) 0)) as (v2 & p2 & -> & _).
  destruct (book_value_metric_total
              (get_default (SymbolInfo.marketCap si) 0)
              (get_default (SymbolInfo.quantityIssued si) 0)) as (r3 & ->).
  destruct (liquidity_metrics_total
              (get_default (SymbolInfo.ytdShareVolume si) 0)
              (get_default (SymbolInfo.ytdTurnover si) 0)
              (get_default (SymbolInfo.lastTradedPrice si) 0)) as (r4 & ->).
  rewrite risk_of_beta_spec. res_simpl.
  eexists. split; [reflexivity|]. by cbn.
Qed.

(** ** Risk category *)

(** For a beta that is present and not zero the category follows the fixed
    thresholds, whatever its sign; without a beta there is no category. *)
Lemma risk_category_thresholds (si : SymbolInfo.t) (bi : BetaInfo.t) :
  exists m, calculate_investment_metrics si bi = Ok m /\
    (get (BetaInfo.triASIBetaValue bi) = None -> risk_category m = None) /\
    (forall b, get (BetaInfo.triASIBetaValue bi) = Some b -> ~ b == 0 ->
       (1.5 < b -> risk_category m = Some HighRisk) /\
       (1.0 < b -> b <= 1.5 -> risk_category m = Some MediumRisk) /\
       (0.5 < b -> b <= 1.0 -> risk_category m = Some LowRisk) /\
       (b <= 0.5 -> risk_category m = Some VeryLowRisk)).
Proof.
  destruct (calculate_investment_metrics_spec si bi) as (m & Hm & _ & _ & Hrisk).
  exists m. split; [done|]. rewrite risk_of_beta_spec in Hrisk.
  injection Hrisk as Hrisk. rewrite <- Hrisk. split.
  - by intros ->.
  - intros b -> Hb. apply Qeq_bool_false in Hb. rewrite Hb.
    repeat split.
    + intros H. apply Qltb_lt in H. by rewrite H.
    + intros H1 H2. apply Qltb_ge in H2. apply Qltb_lt in H1. by rewrite H2, H1.
    + intros H1 H2. apply Qltb_lt in H1. apply Qltb_ge in H2.
      assert (H3 : Qltb 1.5 b = false).
      { apply Qltb_ge. apply Qltb_ge in H2. eapply Qle_trans; [exact H2|]. done. }
      by rewrite H3, H2, H1.
    + intros H. assert (H1 : Qltb 0.5 b = false) by by apply Qltb_ge.
      assert (H2 : Qltb 1.0 b = false).
      { apply Qltb_ge. eapply Qle_trans; [exact H|]. done. }
      assert (H3 : Qltb 1.5 b = false).
      { apply Qltb_ge. eapply Qle_trans; [exact H|]. done. }
      by rewrite H3, H2, H1.
Qed.

(** C1 (evaluation at the failing input): a snapshot whose beta coefficient is
    present and equal to zero gets no risk category at all, because the guard
    [if beta_asi:] treats the number zero like a missing value; the threshold
    [beta <= 0.5] of the last bucket is never consulted for it. *)
Theorem C1_zero_beta_has_no_risk_category
    (si : SymbolInfo.t) (spsl : field Q) (period quarter : field string) :
  exists m,
    calculate_investment_metrics si (BetaInfo.mk (Val 0) spsl period quarter) = Ok m /\
    get (BetaInfo.triASIBetaValue (BetaInfo.mk (Val 0) spsl period quarter)) = Some 0 /\
    risk_category m = None.
Proof.
  destruct (calculate_investment_metrics_spec si (BetaInfo.mk (Val 0) spsl period quarter))
    as (m & Hm & _ & _ & Hrisk).
  exists m. split; [done|]. split; [done|].
  rewrite risk_of_beta_spec in Hrisk. by injection Hrisk as <-.
Qed.

(** ** Percentage change *)

(** C5: the derived [price_change_pct] equals
    (lastTradedPrice - previousClose) / previousClose * 100 whenever it is
    present, it is present only if previousClose is not zero, and for a
    snapshot with previousClose = 0 the metrics are returned (no error) without
    it. *)
Theorem C5_price_change_pct (si : SymbolInfo.t) (bi : BetaInfo.t) :
  exists m, calculate_investment_metrics si bi = Ok m /\
    (forall v, price_change_pct m = Some v ->
       exists last prev,
         get_default (SymbolInfo.lastTradedPrice si) 0 = Some last /\
         get_default (SymbolInfo.previousClose si) 0 = Some prev /\
         ~ prev == 0 /\
         v = (last - prev) / prev * 100) /\
    (forall prev,
       get_default (SymbolInfo.previousClose si) 0 = Some prev -> prev == 0 ->
       price_change_pct m = None).
Proof.
  destruct (calculate_investment_metrics_spec si bi) as (m & Hm & Hprice & _).
  exists m. split; [done|].
  destruct (price_change_metric_spec
              (get_default (SymbolInfo.lastTradedPrice si) 0)
              (get_default (SymbolInfo.previousClose si) 0)) as (r & Hr & Hnone & Hsome).
  rewrite Hr in Hprice. injection Hprice as <-. split.
  - intros v Hv. destruct (Hsome v Hv) as (l & p & Hl & Hp & Hnz & ->).
    by exists l, p.
  - intros prev Hprev Hzero. apply Hnone. rewrite Hprev. cbn [truthy].
    apply Qeq_bool_iff in Hzero. rewrite Hzero. apply andb_false_r.
Qed.

(** ** Position in the year-to-date range *)

(** C6: when ytdHigh == ytdLow neither [ytd_volatility] nor
    [position_in_ytd_range] is present; for ytdHigh = 100, ytdLow = 50 and
    lastTradedPrice = 75 the position is 50 and the volatility is 100. *)
Theorem C6_ytd_range (si : SymbolInfo.t) (bi : BetaInfo.t) :
  exists m, calculate_investment_metrics si bi = Ok m /\
    (ne (get_default (SymbolInfo.ytdHiPrice si) 0)
        (get_default (SymbolInfo.ytdLowPrice si) 0) = false ->
     ytd_volatility m = None /\ position_in_ytd_range m = None) /\
    (SymbolInfo.ytdHiPrice si = Val 100 ->
     SymbolInfo.ytdLowPrice si = Val 50 ->
     SymbolInfo.lastTradedPrice si = Val 75 ->
     exists vol pos,
       ytd_volatility m = Some vol /\ vol == 100 /\
       position_in_ytd_range m = Some pos /\ pos == 50).
Proof.
  destruct (calculate_investment_metrics_spec si bi) as (m & Hm & _ & Hytd & _).
  exists m. split; [done|].
  destruct (range_metrics_spec
              (get_default (SymbolInfo.ytdHiPrice si) 0)
              (get_default (SymbolInfo.ytdLowPrice si) 0)
              (get_default (SymbolInfo.lastTradedPrice si) 0))
    as (vol & pos & Hr & Hnone & Hsome).
  rewrite Hr in Hytd. injection Hytd as <- <-. split.
  - intros Hne. apply Hnone. rewrite Hne. apply andb_false_r.
  - intros Hhi Hlo Hlast. rewrite Hhi, Hlo, Hlast in Hsome. cbn [get_default] in Hsome.
    destruct (Hsome 100 50 eq_refl eq_refl) as [Hvol Hpos]; [done..|].
    specialize (Hpos 75 eq_refl). rewrite Hvol, Hpos by done.
    do 2 eexists. by repeat split.
Qed.

(** ** The roster loop of [CSE_API.get_all_companies] *)

(** The companies a response contributes to the roster. *)
Lemma roster_step_spec (net : CSE_API.roster_network) (st : CSE_API.roster_state)
    (letter : string) :
  exists cs fs,
    CSE_API.roster_step net st letter =
      CSE_API.mkRosterState
        (CSE_API.all_companies st ++ cs) (CSE_API.failed_requests st ++ fs)
        (CSE_API.trace st ++ [Request "alphabetical" (VStr (upper letter))]) /\
    (forall e code, CSE_API.get_companies_by_alphabet net letter = CSE_API.Failure e code ->
       cs = [] /\ fs = [CSE_API.mkLetterFailure letter e]) /\
    (forall code d, CSE_API.get_companies_by_alphabet net letter = CSE_API.Success code d ->
       fs = []).
Proof.
  unfold CSE_API.roster_step.
  destruct (CSE_API.get_companies_by_alphabet net letter) as [code d|e code].
  - match goal with |- context [match ?x with [] => _ | _ :: _ => _ end] =>
      exists x, []; destruct x end.
    all: rewrite !app_nil_r; repeat split; done.
  - exists [], [CSE_API.mkLetterFailure letter e]. rewrite app_nil_r.
    split; [done|]. split; [intros ? ? [= <- _]; done | done].
Qed.

Lemma roster_loop_spec (net : CSE_API.roster_network) (letters : list string)
    (st : CSE_API.roster_state) :
  let st' := foldl (CSE_API.roster_step net) st letters in
  CSE_API.failed_requests st' =
    CSE_API.failed_requests st ++
    omap (fun l => match CSE_API.get_companies_by_alphabet net l with
                   | CSE_API.Failure e _ => Some (CSE_API.mkLetterFailure l e)
                   | CSE_API.Success _ _ => None
                   end) letters /\
  CSE_API.trace st' =
    CSE_API.trace st ++ ((fun l => Request "alphabetical" (VStr (upper l))) <$> letters) /\
  ((forall l, l ∈ letters ->
      exists e code, CSE_API.get_companies_by_alphabet net l = CSE_API.Failure e code) ->
   CSE_API.all_companies st' = CSE_API.all_companies st).
Proof.
  revert st. induction letters as [|l letters IH]; intros st; cbn [foldl].
  - cbn. by rewrite !app_nil_r.
  - destruct (IH (CSE_API.roster_step net st l)) as (Hf & Ht & Ha).
    destruct (roster_step_spec net st l) as (cs & fs & Hstep & Hfail & Hok).
    cbn zeta in *. rewrite Hf, Ht. rewrite Hstep in *. cbn [CSE_API.failed_requests
      CSE_API.trace CSE_API.all_companies] in *.
    cbn [omap list_omap fmap list_fmap]. rewrite <- !app_assoc. repeat split.
    + f_equal. destruct (CSE_API.get_companies_by_alphabet net l) as [code d|e code] eqn:E.
      * by rewrite (Hok code d eq_refl).
      * by destruct (Hfail e code eq_refl) as [_ ->].
    + intros Hall. rewrite Ha.
      * destruct (Hall l) as (e & code & E); [by left|].
        destruct (Hfail e code E) as [-> _]. by rewrite app_nil_r.
      * intros l' Hl'. apply Hall. by right.
Qed.

Lemma List_filter_sublist {A} (f : A -> bool) (l : list A) :
  List.filter f l `sublist_of` l.
Proof.
  induction l as [|x l IH]; simpl; [constructor|].
  destruct (f x); [by apply sublist_skip | by apply sublist_cons].
Qed.

(** C10: the A-Z roster fetch returns success = True and status_code = 200
    whatever the 26 requests do; the failures appear only in failed_requests
    (one entry per failed letter, in order), and the data field is the pair of
    all companies and of those among them whose lastTradedTime is not None.
    When every request fails the roster is empty and all 26 letters are
    listed as failed, still under success = True. *)
Theorem C10_get_all_companies_always_succeeds (net : CSE_API.roster_network) :
  let r := (CSE_API.get_all_companies net).1 in
  CSE_API.success r = true /\
  CSE_API.status_code r = 200%Z /\
  (CSE_API.data r).2 = List.filter CSE_API.is_active (CSE_API.data r).1 /\
  (forall c, c ∈ (CSE_API.data r).2 <->
             c ∈ (CSE_API.data r).1 /\ dict_get c "lastTradedTime" <> VNone) /\
  (CSE_API.data r).2 `sublist_of` (CSE_API.data r).1 /\
  CSE_API.total_companies r = length (CSE_API.data r).1 /\
  CSE_API.active_companies r = length (CSE_API.data r).2 /\
  CSE_API.result_failed_requests r =
    omap (fun l => match CSE_API.get_companies_by_alphabet net l with
                   | CSE_API.Failure e _ => Some (CSE_API.mkLetterFailure l e)
                   | CSE_API.Success _ _ => None
                   end) CSE_API.ascii_uppercase /\
  ((forall l, l ∈ CSE_API.ascii_uppercase ->
      exists e code, CSE_API.get_companies_by_alphabet net l = CSE_API.Failure e code) ->
   CSE_API.data r = ([], []) /\
   CSE_API.letter <$> CSE_API.result_failed_requests r = CSE_API.ascii_uppercase).
Proof.
  cbn zeta. unfold CSE_API.get_all_companies.
  generalize CSE_API.ascii_uppercase. intros letters.
  pose proof (roster_loop_spec net letters (CSE_API.mkRosterState [] [] [])) as Hspec.
  cbn zeta in Hspec. revert Hspec.
  generalize (foldl (CSE_API.roster_step net) (CSE_API.mkRosterState [] [] []) letters).
  intros st (Hf & _ & Ha).
  cbn [fst snd CSE_API.success CSE_API.status_code CSE_API.data
       CSE_API.total_companies CSE_API.active_companies CSE_API.result_failed_requests].
  cbn [CSE_API.failed_requests CSE_API.all_companies app] in Hf, Ha.
  split_and!; try done.
  - intros c. split.
    + intros Hc. apply list_elem_of_In, filter_In in Hc as [Hc Hact]. split.
      * by apply list_elem_of_In.
      * unfold CSE_API.is_active in Hact. intros E. by rewrite E in Hact.
    + intros [Hc Hne]. apply list_elem_of_In, filter_In. split.
      * by apply list_elem_of_In.
      * unfold CSE_API.is_active. by destruct (dict_get c "lastTradedTime").
  - apply List_filter_sublist.
  - intros Hall. rewrite (Ha Hall). split; [done|].
    rewrite Hf. clear Hf Ha. revert Hall.
    induction letters as [|l letters IH]; intros Hall; [done|].
    cbn [omap list_omap]. destruct (Hall l) as (e & code & ->); [by left|].
    cbn [fmap list_fmap CSE_API.letter]. f_equal. apply IH.
    intros l' Hl'. apply Hall. by right.
Qed.

(** ** Traces *)

Lemma ends_in_request_cons (b : bool) (e : event) (t : list event) :
  ends_in_request b (e :: t) =
  ends_in_request (match e with Request _ _ => true | Sleep _ => false end) t.
Proof.
  unfold ends_in_request. rewrite last_cons.
  destruct (last t) as [[]|]; by destruct e.
Qed.

Lemma spaced_app (b : bool) (t t' : list event) :
  spaced b (t ++ t') = spaced b t && spaced (ends_in_request b t) t'.
Proof.
  revert b. induction t as [|e t IH]; intros b; [done|].
  rewrite ends_in_request_cons. destruct e; cbn [app spaced].
  - rewrite IH. by rewrite andb_assoc.
  - apply IH.
Qed.

Lemma ends_in_request_app (b : bool) (t : list event) (e : event) :
  ends_in_request b (t ++ [e]) =
  match e with Request _ _ => true | Sleep _ => false end.
Proof.
  unfold ends_in_request. rewrite last_snoc. by destruct e.
Qed.

(** ** The per-company loop of [analyze_companies] *)

(** What one iteration does, by the outcome of its fetch and of its progress
    display. *)
Lemma analyze_one_spec (net : CSE_API.info_network) (clock : nat -> string)
    (delay : Q) (total i : nat) (c : company) (self : analyzer) :
  let symbol := dict_get c "symbol" in
  let request := Request "companyInfoSummery" symbol in
  let pause := if (i <? total)%nat then [Sleep delay] else [] in
  match get_company_summary net i symbol with
  | SummaryFailed error =>
      analyze_one net clock delay total i c self =
        (mkAnalyzer (company_data self) (analysis_results self)
           (failed_requests self ++
              [mkFailureRecord symbol (dict_get_default c "name" (VStr "Unknown")) error])
           (trace self ++ request :: pause), None)
  | SummaryOk data =>
      let a := mkCompanyAnalysis (extract_comprehensive_data data (clock i)) (Some c) in
      match display_metrics (fields a) with
      | Ok _ =>
          analyze_one net clock delay total i c self =
            (mkAnalyzer (company_data self) (analysis_results self ++ [a])
               (failed_requests self) (trace self ++ request :: pause), None)
      | Raise e =>
          analyze_one net clock delay total i c self =
            (mkAnalyzer (company_data self) (analysis_results self ++ [a])
               (failed_requests self) (trace self ++ [request]), Some e)
      end
  end.
Proof.
  cbn zeta. unfold analyze_one.
  destruct (get_company_summary net i (dict_get c "symbol")) as [data|error].
  - cbn [fields]. destruct (display_metrics _) as [[]|e]; [|done].
    destruct (i <? total)%nat; [|done].
    unfold record_event. cbn. by rewrite <- app_assoc.
  - destruct (i <? total)%nat; [|done].
    unfold record_event. cbn. by rewrite <- app_assoc.
Qed.

(** The trace grows by the request of the iteration, followed by a sleep
    when the iteration completes and is not the last one. *)
Lemma analyze_one_trace (net : CSE_API.info_network) (clock : nat -> string)
    (delay : Q) (total i : nat) (c : company) (self : analyzer) :
  let request := Request "companyInfoSummery" (dict_get c "symbol") in
  let out := analyze_one net clock delay total i c self in
  (out.2 = None /\ (i < total)%nat /\
     trace out.1 = trace self ++ [request; Sleep delay]) \/
  ((out.2 <> None \/ ~ (i < total)%nat) /\ trace out.1 = trace self ++ [request]).
Proof.
  cbn zeta. pose proof (analyze_one_spec net clock delay total i c self) as H.
  cbn zeta in H.
  destruct (get_company_summary net i (dict_get c "symbol")) as [data|error].
  - destruct (display_metrics _) as [[]|e]; rewrite H; cbn [fst snd trace].
    + destruct (Nat.ltb_spec i total); [left | right]; split_and?; try done.
      right. lia.
    + right. split; [by left | done].
  - rewrite H; cbn [fst snd trace].
    destruct (Nat.ltb_spec i total); [left | right]; split_and?; try done.
    right. lia.
Qed.

Lemma analyze_loop_spaced (net : CSE_API.info_network) (clock : nat -> string)
    (delay : Q) (total : nat) (companies : list company) :
  forall (i : nat) (self : analyzer),
    (i + length companies = S total)%nat ->
    spaced false (trace self) = true ->
    ends_in_request false (trace self) = false ->
    spaced false (trace (analyze_loop net clock delay total i companies self).1) = true.
Proof.
  induction companies as [|c rest IH]; intros i self Hlen Hsp Hend; [done|].
  cbn [analyze_loop length] in *.
  pose proof (analyze_one_trace net clock delay total i c self) as Hone.
  cbn zeta in Hone.
  destruct (analyze_one net clock delay total i c self) as [self1 [e|]];
    cbn [fst snd] in *.
  - destruct Hone as [(? & _)|(_ & ->)]; [done|].
    rewrite spaced_app, Hsp, Hend. done.
  - destruct Hone as [(_ & Hlt & Ht)|(Hlast & Ht)].
    + apply IH; [lia | |].
      * rewrite Ht, spaced_app, Hsp, Hend. done.
      * rewrite Ht.
        change [Request "companyInfoSummery" (dict_get c "symbol"); Sleep delay]
          with ([Request "companyInfoSummery" (dict_get c "symbol")] ++ [Sleep delay]).
        by rewrite app_assoc, ends_in_request_app.
    + destruct Hlast as [?|Hge]; [done|].
      destruct rest as [|c' rest]; [|cbn [length] in Hlen; lia].
      cbn [analyze_loop fst]. rewrite Ht, spaced_app, Hsp, Hend. done.
Qed.

Lemma analyze_loop_sleeps (net : CSE_API.info_network) (clock : nat -> string)
    (delay : Q) (total : nat) (companies : list company) :
  forall (i : nat) (self : analyzer),
    (forall d, Sleep d ∈ trace self -> d = delay) ->
    forall d, Sleep d ∈ trace (analyze_loop net clock delay total i companies self).1 ->
              d = delay.
Proof.
  induction companies as [|c rest IH]; intros i self Hself; [done|].
  cbn [analyze_loop].
  pose proof (analyze_one_trace net clock delay total i c self) as Hone.
  cbn zeta in Hone.
  assert (Hself1 : forall d,
    Sleep d ∈ trace (analyze_one net clock delay total i c self).1 -> d = delay).
  { intros d. destruct Hone as [(_ & _ & ->)|(_ & ->)];
      rewrite elem_of_app; intros [?|Hd]; auto.
    - apply elem_of_cons in Hd as [?|Hd]; [done|].
      apply list_elem_of_singleton in Hd. by injection Hd.
    - by apply list_elem_of_singleton in Hd. }
  destruct (analyze_one net clock delay total i c self) as [self1 [e|]];
    cbn [fst snd] in *; [done|]. by apply IH.
Qed.

(** The progress display raises exactly when the change percentage that the
    record carries is [None]. *)
Lemma display_metrics_Ok (a : analysis_fields) (q : Q) :
  analysis_get_base a Base.change_percentage = Some q -> display_metrics a = Ok ().
Proof.
  intros Hq. unfold display_metrics, format_float. rewrite Hq. cbn [num]. res_simpl.
  destruct (truthy (analysis_get_base a Base.market_cap)) eqn:Hc.
  - apply truthy_Some in Hc as (c & -> & _). cbn [num]. res_simpl.
    destruct (truthy (analysis_get_metric a position_in_ytd_range)) eqn:Hp; [|done].
    by apply truthy_Some in Hp as (y & -> & _).
  - res_simpl.
    destruct (truthy (analysis_get_metric a position_in_ytd_range)) eqn:Hp; [|done].
    by apply truthy_Some in Hp as (y & -> & _).
Qed.

Lemma display_metrics_Raise (a : analysis_fields) :
  analysis_get_base a Base.change_percentage = None ->
  exists msg, display_metrics a = Raise (TypeError msg).
Proof.
  intros Hq. unfold display_metrics, format_float. rewrite Hq. by eexists.
Qed.

(** A run in which no progress display raises goes through every company:
    each failed fetch leaves exactly its failure record, each successful one
    its analysis, and a sleep follows every request but the last. *)
Lemma analyze_loop_completes (net : CSE_API.info_network) (clock : nat -> string)
    (delay : Q) (total : nat) (companies : list company) :
  forall (i : nat) (self : analyzer),
    (forall j c data, (j, c) ∈ enumerate i companies ->
       get_company_summary net j (dict_get c "symbol") = SummaryOk data ->
       display_metrics (extract_comprehensive_data data (clock j)) = Ok ()) ->
    exists self',
      analyze_loop net clock delay total i companies self = (self', None) /\
      company_data self' = company_data self /\
      analysis_results self' =
        analysis_results self ++
        omap (fun jc => fetch_analysis net clock jc.1 jc.2) (enumerate i companies) /\
      failed_requests self' =
        failed_requests self ++
        omap (fun jc => fetch_failure net jc.1 jc.2) (enumerate i companies) /\
      trace self' =
        trace self ++
        concat ((fun jc => Request "companyInfoSummery" (dict_get jc.2 "symbol") ::
                           if (jc.1 <? total)%nat then [Sleep delay] else [])
                <$> enumerate i companies).
Proof.
  induction companies as [|c rest IH]; intros i self Hdisplay.
  - exists self. cbn. by rewrite !app_nil_r.
  - cbn [analyze_loop enumerate omap list_omap fmap list_fmap concat fst snd].
    pose proof (analyze_one_spec net clock delay total i c self) as Hone.
    cbn zeta in Hone. cbn [fields] in Hone.
    unfold fetch_analysis at 1, fetch_failure at 1.
    destruct (get_company_summary net i (dict_get c "symbol")) as [data|error] eqn:E.
    + rewrite (Hdisplay i c data) in Hone; [|by left|done].
      rewrite Hone.
      edestruct IH as (self' & -> & Hcd & Hres & Hfail & Htrace).
      { intros j c' data' Hin. apply Hdisplay. by right. }
      exists self'. split; [done|]. rewrite Hcd, Hres, Hfail, Htrace.
      cbn [company_data analysis_results failed_requests trace].
      by rewrite <- !app_assoc.
    + rewrite Hone.
      edestruct IH as (self' & -> & Hcd & Hres & Hfail & Htrace).
      { intros j c' data' Hin. apply Hdisplay. by right. }
      exists self'. split; [done|]. rewrite Hcd, Hres, Hfail, Htrace.
      cbn [company_data analysis_results failed_requests trace].
      by rewrite <- !app_assoc.
Qed.

(** The roster loop issues its 26 requests back to back. *)
Lemma get_all_companies_trace (net : CSE_API.roster_network) :
  (CSE_API.get_all_companies net).2 =
  (fun l => Request "alphabetical" (VStr l)) <$> CSE_API.ascii_uppercase.
Proof.
  unfold CSE_API.get_all_companies. cbn [snd].
  destruct (roster_loop_spec net CSE_API.ascii_uppercase (CSE_API.mkRosterState [] [] []))
    as (_ & Ht & _).
  cbn zeta in Ht. rewrite Ht. reflexivity.
Qed.

(** C8 (counterexample): on a roster service that answers every letter, the
    trace of [get_all_companies] consists of 26 consecutive requests and no
    sleep, so the calls are not separated by a delay. *)
Lemma C8_roster_loop_has_no_delay :
  delay_between_calls (CSE_API.get_all_companies Sample.roster_all_empty).2 = false /\
  length (CSE_API.get_all_companies Sample.roster_all_empty).2 = 26%nat /\
  forall d, Sleep d ∉ (CSE_API.get_all_companies Sample.roster_all_empty).2.
Proof.
  rewrite get_all_companies_trace. split; [reflexivity|]. split; [reflexivity|].
  intros d Hd. apply list_elem_of_fmap in Hd as (l & Hl & _). discriminate.
Qed.

(** C8 (amended): in the per-company loop of [analyze_companies] a sleep of
    the given delay separates every two consecutive requests, whatever the
    outcome of each fetch; the roster loop of [get_all_companies] makes its 26
    requests with no sleep between them. *)
Theorem C8_delay_between_company_calls
    (net : CSE_API.info_network) (clock : nat -> string) (self : analyzer)
    (limit : option Z) (delay : Q) (roster : CSE_API.roster_network) :
  let out := analyze_companies net clock self limit delay in
  delay_between_calls (trace out.1) = true /\
  (forall d, Sleep d ∈ trace out.1 -> d = delay) /\
  (CSE_API.get_all_companies roster).2 =
    (fun l => Request "alphabetical" (VStr l)) <$> CSE_API.ascii_uppercase.
Proof.
  cbn zeta. split_and!; [| |apply get_all_companies_trace].
  - unfold analyze_companies, delay_between_calls.
    destruct (company_data self) as [|c cs] eqn:E; [done|].
    apply analyze_loop_spaced; [lia|done..].
  - unfold analyze_companies.
    destruct (company_data self) as [|c cs] eqn:E.
    + cbn. intros d Hd. by apply elem_of_nil in Hd.
    + apply analyze_loop_sleeps. cbn. intros d Hd. by apply elem_of_nil in Hd.
Qed.

(** ** Failed fetches in the per-company loop *)

(** A failed fetch appends exactly one failure record, with the symbol, the
    name and the error message of its company, and the iteration completes. *)
Lemma failed_fetch_is_recorded (net : CSE_API.info_network) (clock : nat -> string)
    (delay : Q) (total i : nat) (c : company) (self : analyzer) (error : string) :
  get_company_summary net i (dict_get c "symbol") = SummaryFailed error ->
  let out := analyze_one net clock delay total i c self in
  out.2 = None /\
  analysis_results out.1 = analysis_results self /\
  failed_requests out.1 =
    failed_requests self ++
    [mkFailureRecord (dict_get c "symbol")
                     (dict_get_default c "name" (VStr "Unknown")) error].
Proof.
  intros E. cbn zeta.
  pose proof (analyze_one_spec net clock delay total i c self) as Hone.
  cbn zeta in Hone. rewrite E in Hone. by rewrite Hone.
Qed.

(** The scenario of three entities of which the second fails: provided the
    progress display of entities 1 and 3 does not raise, the run completes
    with two analyses and the single failure record of entity 2, and entity 3
    is requested. *)
Lemma three_entities_second_fails
    (net : CSE_API.info_network) (clock : nat -> string) (delay : Q)
    (c1 c2 c3 : company) (d1 d3 : CSE_API.company_info) (error : string) :
  get_company_summary net 1 (dict_get c1 "symbol") = SummaryOk d1 ->
  get_company_summary net 2 (dict_get c2 "symbol") = SummaryFailed error ->
  get_company_summary net 3 (dict_get c3 "symbol") = SummaryOk d3 ->
  display_metrics (extract_comprehensive_data d1 (clock 1%nat)) = Ok () ->
  display_metrics (extract_comprehensive_data d3 (clock 3%nat)) = Ok () ->
  let out := analyze_companies net clock (mkAnalyzer [c1; c2; c3] [] [] []) None delay in
  out.2 = None /\
  analysis_results out.1 =
    [mkCompanyAnalysis (extract_comprehensive_data d1 (clock 1%nat)) (Some c1);
     mkCompanyAnalysis (extract_comprehensive_data d3 (clock 3%nat)) (Some c3)] /\
  failed_requests out.1 =
    [mkFailureRecord (dict_get c2 "symbol")
                     (dict_get_default c2 "name" (VStr "Unknown")) error] /\
  trace out.1 =
    [Request "companyInfoSummery" (dict_get c1 "symbol"); Sleep delay;
     Request "companyInfoSummery" (dict_get c2 "symbol"); Sleep delay;
     Request "companyInfoSummery" (dict_get c3 "symbol")].
Proof.
  intros E1 E2 E3 D1 D3. cbn zeta.
  unfold analyze_companies.
  cbn [company_data analysis_results failed_requests trace length analyze_loop].
  pose proof (analyze_one_spec net clock delay 3 1 c1 (mkAnalyzer [c1; c2; c3] [] [] []))
    as H1.
  cbn zeta in H1. rewrite E1 in H1. cbn [fields] in H1. rewrite D1 in H1.
  rewrite H1. clear H1.
  match goal with |- context [analyze_one net clock delay 3 2 c2 ?s] =>
    pose proof (analyze_one_spec net clock delay 3 2 c2 s) as H2 end.
  cbn zeta in H2. rewrite E2 in H2. rewrite H2. clear H2.
  match goal with |- context [analyze_one net clock delay 3 3 c3 ?s] =>
    pose proof (analyze_one_spec net clock delay 3 3 c3 s) as H3 end.
  cbn zeta in H3. rewrite E3 in H3. cbn [fields] in H3. rewrite D3 in H3.
  rewrite H3. clear H3.
  by cbn.
Qed.

(** On the sample service whose quotes carry their change percentage the
    scenario applies. *)
Lemma three_entities_sample :
  let out := analyze_companies Sample.net_second_fails Sample.clock Sample.self None 1 in
  out.2 = None /\
  length (analysis_results out.1) = 2%nat /\
  failed_requests out.1 =
    [mkFailureRecord (VStr "BBB.N0000") (VStr "Beta PLC") "Read timed out."] /\
  trace out.1 =
    [Request "companyInfoSummery" (VStr "AAA.N0000"); Sleep 1;
     Request "companyInfoSummery" (VStr "BBB.N0000"); Sleep 1;
     Request "companyInfoSummery" (VStr "CCC.N0000")].
Proof.
  destruct (three_entities_second_fails Sample.net_second_fails Sample.clock 1
              (Sample.entity "AAA.N0000" "Alpha PLC")
              (Sample.entity "BBB.N0000" "Beta PLC")
              (Sample.entity "CCC.N0000" "Gamma PLC")
              (CSE_API.Object (Val (Sample.quote 10.5 (Val 1.2))) Missing Missing)
              (CSE_API.Object (Val (Sample.quote 10.5 (Val 1.2))) Missing Missing)
              "Read timed out.")
    as (H1 & H2 & H3 & H4); try reflexivity.
  cbn zeta. change Sample.self with
    (mkAnalyzer [Sample.entity "AAA.N0000" "Alpha PLC";
                 Sample.entity "BBB.N0000" "Beta PLC";
                 Sample.entity "CCC.N0000" "Gamma PLC"] [] [] []).
  rewrite H1, H2, H3, H4. by split_and!.
Qed.

(** C7 (evaluation at the failing input): entity 1 answers with a quote that
    has no change percentage, entity 2 times out, entity 3 answers.  The
    record of entity 1 is appended, then formatting its [None] change
    percentage with [+.2f] raises [TypeError]; the loop is left at once, so
    entities 2 and 3 are never requested and no failure record exists. *)
Theorem C7_display_error_aborts_loop :
  let out := analyze_companies Sample.net_no_change_pct Sample.clock Sample.self None 1 in
  (exists d1, get_company_summary Sample.net_no_change_pct 1 (VStr "AAA.N0000")
              = SummaryOk d1) /\
  (exists e, get_company_summary Sample.net_no_change_pct 2 (VStr "BBB.N0000")
             = SummaryFailed e) /\
  (exists d3, get_company_summary Sample.net_no_change_pct 3 (VStr "CCC.N0000")
              = SummaryOk d3) /\
  (exists msg, out.2 = Some (TypeError msg)) /\
  length (analysis_results out.1) = 1%nat /\
  failed_requests out.1 = [] /\
  trace out.1 = [Request "companyInfoSummery" (VStr "AAA.N0000")].
Proof.
  cbn zeta. split_and!; try (by eexists); reflexivity.
Qed.

(** ** The report as a function of the records *)

(** C3 (counterexample): two calls of the aggregation on the same records at
    different clock readings return different reports, since the summary
    carries the time of the call. *)
Lemma C3_report_depends_on_clock :
  generate_investment_analysis "2024-01-01 09:00:00" Sample.near_low_records <>
  generate_investment_analysis "2024-01-01 09:00:01" Sample.near_low_records.
Proof.
  intros H. vm_compute in H. discriminate H.
Qed.

(** C3 (amended): apart from [summary.analysis_date], which is the clock
    reading of the call, the outcome of the aggregation is a function of the
    record collection alone: two calls on the same records agree on every
    statistic, on every ranked list and on whether an exception is raised. *)
Theorem C3_report_determined_by_records
    (now1 now2 : string) (analysis_results : list CompanyAnalysis) :
  generate_investment_analysis now1 analysis_results =
    with_analysis_date now1 <$> generate_investment_analysis now2 analysis_results /\
  forall date,
    with_analysis_date date <$> generate_investment_analysis now1 analysis_results =
    with_analysis_date date <$> generate_investment_analysis now2 analysis_results.
Proof.
  assert (H : forall n m,
    generate_investment_analysis n analysis_results =
    with_analysis_date n <$> generate_investment_analysis m analysis_results).
  { intros n m. unfold generate_investment_analysis.
    destruct analysis_results as [|r rs]; [done|].
    destruct (active_subset _) as [df_active|e]; [|done]. res_simpl.
    destruct (_analyze_market_overview df_active); [|done]. res_simpl.
    destruct (_analyze_valuations df_active); [|done]. res_simpl.
    destruct (_analyze_risk_profile df_active); [|done]. res_simpl.
    destruct (_analyze_performance df_active); [|done]. res_simpl.
    destruct (_analyze_liquidity df_active); [|done]. res_simpl.
    destruct (_identify_opportunities df_active); [|done]. res_simpl.
    reflexivity. }
  split; [apply H|]. intros date. rewrite (H now1 now2).
  destruct (generate_investment_analysis now2 analysis_results) as [[]|]; done.
Qed.

(** ** Columns and cells of the frame *)

Lemma assoc_Some_key (k : string) (kvs : list (string * cell)) (v : cell) :
  assoc k kvs = Some v -> k ∈ kvs.*1.
Proof.
  induction kvs as [|[k' v'] kvs IH]; cbn; [done|].
  destruct (String.eqb_spec k k') as [->|_].
  - intros _. apply list_elem_of_here.
  - intros H. apply list_elem_of_further. by apply IH.
Qed.

Lemma numeric_Some (v : cell) (q : Q) : numeric v = Some q <-> v = Num q.
Proof. destruct v; cbn; split; congruence. Qed.

Lemma numeric_cell_key (r : CompanyAnalysis) (c : string) (q : Q) :
  numeric (cell_at r c) = Some q -> c ∈ keys r.
Proof.
  unfold cell_at, keys. destruct (assoc c (items r)) as [v|] eqn:E; [|done].
  intros _. by eapply assoc_Some_key.
Qed.

Lemma pd_DataFrame_column (records : list CompanyAnalysis) (r : CompanyAnalysis)
    (c : string) :
  r ∈ records -> c ∈ keys r -> c ∈ columns (pd_DataFrame records).
Proof.
  intros Hr Hc. cbn [pd_DataFrame columns]. apply elem_of_remove_dups.
  apply list_elem_of_In, in_concat. exists (keys r). split.
  - apply list_elem_of_In. by apply list_elem_of_fmap_2.
  - by apply list_elem_of_In.
Qed.

Lemma col_Ok (df : DataFrame) (c : string) :
  c ∈ columns df -> col df c = Ok (fun r => numeric (cell_at r c)).
Proof. intros H. unfold col. by rewrite bool_decide_eq_true_2. Qed.

Lemma col_inv (df : DataFrame) (c : string) (f : CompanyAnalysis -> pynum) :
  col df c = Ok f -> f = (fun r => numeric (cell_at r c)) /\ c ∈ columns df.
Proof.
  unfold col. case_bool_decide; [|done]. by intros [= <-].
Qed.

Lemma List_filter_elem {A} (f : A -> bool) (l : list A) (x : A) :
  x ∈ List.filter f l <-> x ∈ l /\ f x = true.
Proof. by rewrite !list_elem_of_In, filter_In. Qed.

Lemma notna_Some (q : Q) : notna (Some q) = true.
Proof. done. Qed.

Lemma cmp_gt_Some (v : pynum) (y : Q) :
  cmp_gt v (Some y) = true <-> exists x, v = Some x /\ y < x.
Proof.
  destruct v as [x|]; cbn; [|split; [done | by intros (? & ? & _)]].
  rewrite Qltb_lt. split; [by exists x | by intros (? & [= <-] & ?)].
Qed.

Lemma cmp_lt_Some (v : pynum) (y : Q) :
  cmp_lt v (Some y) = true <-> exists x, v = Some x /\ x < y.
Proof.
  destruct v as [x|]; cbn; [|split; [done | by intros (? & ? & _)]].
  rewrite Qltb_lt. split; [by exists x | by intros (? & [= <-] & ?)].
Qed.

(** ** The active subset *)

Lemma active_subset_inv (df df_active : DataFrame) :
  active_subset df = Ok df_active ->
  columns df_active = columns df /\
  "last_traded_price" ∈ columns df /\
  rows df_active `sublist_of` rows df /\
  forall r, r ∈ rows df_active <->
            r ∈ rows df /\
            exists p, numeric (cell_at r "last_traded_price") = Some p /\ 0 < p.
Proof.
  unfold active_subset. intros H. apply bind_inv in H as (price & Hcol & H).
  apply col_inv in Hcol as [-> Hin]. injection H as <-.
  cbn [df_filter columns rows]. split_and!; [done..|apply List_filter_sublist|].
  intros r. rewrite List_filter_elem, andb_true_iff, cmp_gt_Some.
  split.
  - intros (Hr & _ & p & Hp & Hpos). eauto.
  - intros (Hr & p & Hp & Hpos). split; [done|]. split; [|eauto].
    rewrite Hp. done.
Qed.

Lemma active_subset_all (records : list CompanyAnalysis) :
  records <> [] ->
  (forall r, r ∈ records ->
     exists p, numeric (cell_at r "last_traded_price") = Some p /\ 0 < p) ->
  active_subset (pd_DataFrame records) =
    Ok (mkDataFrame (columns (pd_DataFrame records)) records).
Proof.
  intros Hne Hall. unfold active_subset. rewrite col_Ok.
  - res_simpl. unfold df_filter. cbn [rows pd_DataFrame columns]. do 2 f_equal.
    clear Hne. induction records as [|r rs IH]; [done|]. cbn [List.filter].
    destruct (Hall r) as (p & Hp & Hpos); [by left|]. rewrite Hp.
    replace (notna (Some p) && cmp_gt (Some p) (Some 0)) with true.
    + f_equal. apply IH. intros r' Hr'. apply Hall. by right.
    + symmetry. apply andb_true_iff. split; [done|]. apply cmp_gt_Some. eauto.
  - destruct records as [|r rs]; [done|].
    destruct (Hall r) as (p & Hp & _); [by left|].
    apply (pd_DataFrame_column _ r); [by left|]. by eapply numeric_cell_key.
Qed.

(** ** Daily performance *)

(** C2 (counterexample): for the three sample records, whose change
    percentages are 5.2, -1.0 and 0.0, the performance analysis counts one
    gainer, one loser and one unchanged, and its average change is 1.4: it
    differs from 1.4667 by more than 0.06. *)
Lemma C2_average_change_is_not_1_4667 :
  exists df perf a,
    active_subset (pd_DataFrame Sample.three_changes) = Ok df /\
    rows df = Sample.three_changes /\
    _analyze_performance df = Ok (Some perf) /\
    gainers perf = 1%nat /\ losers perf = 1%nat /\ unchanged perf = 1%nat /\
    average_change perf = Some a /\
    a == 1.4 /\
    ~ Qabs (a - 1.4667) <= 0.06.
Proof.
  eexists _, _, _. split_and!; try (vm_compute; reflexivity).
  intros H. vm_compute in H. by apply H.
Qed.

(** C2 (amended): for three records with a present, positive last price whose
    change percentages are 5.2, -1.0 and 0.0, the performance analysis reports
    gainers = 1, losers = 1, unchanged = 1 and average_change = 1.4. *)
Theorem C2_performance_of_three_records
    (r1 r2 r3 : CompanyAnalysis) (p1 p2 p3 q1 q2 q3 : Q) :
  numeric (cell_at r1 "last_traded_price") = Some p1 -> 0 < p1 ->
  numeric (cell_at r2 "last_traded_price") = Some p2 -> 0 < p2 ->
  numeric (cell_at r3 "last_traded_price") = Some p3 -> 0 < p3 ->
  numeric (cell_at r1 "change_percentage") = Some q1 -> q1 == 5.2 ->
  numeric (cell_at r2 "change_percentage") = Some q2 -> q2 == -1.0 ->
  numeric (cell_at r3 "change_percentage") = Some q3 -> q3 == 0.0 ->
  exists df perf a,
    active_subset (pd_DataFrame [r1; r2; r3]) = Ok df /\
    rows df = [r1; r2; r3] /\
    _analyze_performance df = Ok (Some perf) /\
    gainers perf = 1%nat /\ losers perf = 1%nat /\ unchanged perf = 1%nat /\
    average_change perf = Some a /\
    a == 1.4.
Proof.
  intros Hp1 Hpos1 Hp2 Hpos2 Hp3 Hpos3 Hq1 E1 Hq2 E2 Hq3 E3.
  eexists _, _, _. split.
  { apply active_subset_all; [done|]. intros r Hr.
    apply elem_of_cons in Hr as [->|Hr]; [eauto|].
    apply elem_of_cons in Hr as [->|Hr]; [eauto|].
    apply list_elem_of_singleton in Hr as ->. eauto. }
  split; [done|].
  assert (Hcol : "change_percentage" ∈ columns (pd_DataFrame [r1; r2; r3])).
  { apply (pd_DataFrame_column _ r1); [by left|]. by eapply numeric_cell_key. }
  unfold _analyze_performance.
  assert (Hempty : df_empty (mkDataFrame (columns (pd_DataFrame [r1; r2; r3]))
                                         [r1; r2; r3]) = false).
  { unfold df_empty. cbn [rows columns].
    destruct (columns (pd_DataFrame [r1; r2; r3])); [|done].
    by apply elem_of_nil in Hcol. }
  rewrite Hempty, col_Ok by done. res_simpl.
  unfold df_filter, count, series. cbn [rows columns List.filter fmap list_fmap].
  rewrite Hq1, Hq2, Hq3, !notna_Some.
  assert (B1 : Qltb 0 q1 = true) by (apply Qltb_lt; by rewrite E1).
  assert (B2 : Qltb q1 0 = false) by (apply Qltb_ge; by rewrite E1).
  assert (B3 : Qeq_bool q1 0 = false) by (apply Qeq_bool_false; by rewrite E1).
  assert (B4 : Qltb 0 q2 = false) by (apply Qltb_ge; by rewrite E2).
  assert (B5 : Qltb q2 0 = true) by (apply Qltb_lt; by rewrite E2).
  assert (B6 : Qeq_bool q2 0 = false) by (apply Qeq_bool_false; by rewrite E2).
  assert (B7 : Qltb 0 q3 = false) by (apply Qltb_ge; by rewrite E3).
  assert (B8 : Qltb q3 0 = false) by (apply Qltb_ge; by rewrite E3).
  assert (B9 : Qeq_bool q3 0 = true) by (apply Qeq_bool_iff; by rewrite E3).
  cbn [List.filter fmap list_fmap rows]. rewrite Hq1, Hq2, Hq3.
  cbn [cmp_gt cmp_lt cmp_eq]. rewrite B1, B2, B3, B4, B5, B6, B7, B8, B9.
  cbn [List.filter length gainers losers unchanged average_change].
  split_and!; try reflexivity.
  cbn [dropna omap list_omap Qsum foldr length]. rewrite E1, E2, E3. reflexivity.
Qed.

Lemma C2_performance_of_three_records_witness :
  exists df perf a,
    active_subset (pd_DataFrame Sample.three_changes) = Ok df /\
    rows df = Sample.three_changes /\
    _analyze_performance df = Ok (Some perf) /\
    gainers perf = 1%nat /\ losers perf = 1%nat /\ unchanged perf = 1%nat /\
    average_change perf = Some a /\
    a == 1.4.
Proof.
  apply (C2_performance_of_three_records
           (Sample.changed 5.2) (Sample.changed (-1.0)) (Sample.changed 0.0)
           10.5 10.5 10.5 5.2 (-1.0) 0.0); reflexivity.
Defined.

(** ** Sorting, selection and ranking *)

Lemma insert_sorted_elem {A} (key : A -> pynum) (ascending : bool) (x y : A)
    (l : list A) :
  y ∈ insert_sorted key ascending x l <-> y = x \/ y ∈ l.
Proof.
  induction l as [|z l IH]; cbn [insert_sorted].
  - rewrite list_elem_of_singleton, elem_of_nil. tauto.
  - destruct (key_le ascending (key x) (key z)).
    + by rewrite elem_of_cons.
    + rewrite !elem_of_cons, IH. tauto.
Qed.

Lemma insert_sorted_Permutation {A} (key : A -> pynum) (ascending : bool) (x : A)
    (l : list A) :
  insert_sorted key ascending x l ≡ₚ x :: l.
Proof.
  induction l as [|z l IH]; cbn [insert_sorted]; [done|].
  destruct (key_le ascending (key x) (key z)); [done|].
  rewrite IH. apply Permutation_swap.
Qed.

(** Sorting rearranges the rows: it neither drops nor adds one. *)
Lemma sort_values_Permutation {A} (key : A -> pynum) (ascending : bool) (l : list A) :
  sort_values key ascending l ≡ₚ l.
Proof.
  unfold sort_values. induction l as [|x l IH]; cbn [foldr]; [done|].
  by rewrite insert_sorted_Permutation, IH.
Qed.

Lemma sort_values_elem {A} (key : A -> pynum) (ascending : bool) (l : list A) (x : A) :
  x ∈ sort_values key ascending l <-> x ∈ l.
Proof. by rewrite sort_values_Permutation. Qed.

Lemma df_sort_values_inv (df df' : DataFrame) (c : string) (ascending : bool) :
  df_sort_values df c ascending = Ok df' ->
  columns df' = columns df /\ rows df' ≡ₚ rows df.
Proof.
  unfold df_sort_values. intros H. apply bind_inv in H as (key & _ & H).
  injection H as <-. split; [done|]. apply sort_values_Permutation.
Qed.

(** A ranked entry is the restriction of one row of the ranked frame to the
    listed columns. *)
Lemma top10_inv (df : DataFrame) (cols : list string) (es : list entry) (e : entry) :
  top10 df cols = Ok es -> e ∈ es ->
  exists r, r ∈ rows df /\ e = (fun c => (c, cell_at r c)) <$> cols.
Proof.
  unfold top10, select_columns. intros H He.
  destruct (List.find _ cols); [done|]. cbn in H. injection H as <-.
  unfold to_dict_records, head in He. cbn [rows columns] in He.
  apply list_elem_of_fmap in He as (r & -> & Hr).
  exists r. split; [|done]. by eapply elem_of_sublist; [|apply sublist_take].
Qed.

Lemma top10_length (df : DataFrame) (cols : list string) (es : list entry) :
  top10 df cols = Ok es -> (length es <= 10)%nat.
Proof.
  unfold top10, select_columns. intros H.
  destruct (List.find _ cols); [done|]. cbn in H. injection H as <-.
  unfold to_dict_records, head. cbn [rows columns].
  rewrite length_fmap, length_take. lia.
Qed.

(** A ranked list: the top ten of a frame sorted on one column. *)
Lemma ranked_inv (guard df : DataFrame) (c : string) (ascending : bool)
    (cols : list string) (ranked : option (list entry)) (es : list entry) (e : entry) :
  (if df_empty guard then mret None
   else sorted ← df_sort_values df c ascending; Some <$> top10 sorted cols) = Ok ranked ->
  ranked = Some es -> e ∈ es ->
  exists r, r ∈ rows df /\ e = (fun c => (c, cell_at r c)) <$> cols.
Proof.
  intros H -> He. destruct (df_empty guard); [done|].
  apply bind_inv in H as (sorted & Hsort & H).
  apply fmap_inv in H as (es' & Htop & [= <-]).
  apply df_sort_values_inv in Hsort as [_ Hperm].
  destruct (top10_inv _ _ _ _ Htop He) as (r & Hr & ->).
  exists r. split; [|done]. by rewrite <- Hperm.
Qed.

(** The three opportunity lists: every entry comes from a row of the frame
    that passes the filter of its list. *)
Lemma _identify_opportunities_inv (df : DataFrame) (o : Opportunities) :
  _identify_opportunities df = Ok o ->
  (forall es e, value_opportunities o = Some es -> e ∈ es ->
     exists r, r ∈ rows df /\
       e = (fun c => (c, cell_at r c)) <$>
           ["symbol"; "name"; "last_traded_price"; "position_in_ytd_range"; "market_cap"] /\
       cmp_lt (numeric (cell_at r "position_in_ytd_range")) (Some 25) = true) /\
  (forall es e, growth_opportunities o = Some es -> e ∈ es ->
     exists r, r ∈ rows df /\
       e = (fun c => (c, cell_at r c)) <$>
           ["symbol"; "name"; "last_traded_price"; "change_percentage"; "today_volume"] /\
       cmp_gt (numeric (cell_at r "change_percentage")) (Some 5) = true /\
       cmp_gt (numeric (cell_at r "today_volume")) (Some 0) = true) /\
  (forall es e, stable_opportunities o = Some es -> e ∈ es ->
     exists r, r ∈ rows df /\
       e = (fun c => (c, cell_at r c)) <$>
           ["symbol"; "name"; "last_traded_price"; "tri_asi_beta"; "market_cap"] /\
       cmp_lt (numeric (cell_at r "tri_asi_beta")) (Some 1.0) = true /\
       cmp_gt (numeric (cell_at r "market_cap"))
              (series_median (series (fun r => numeric (cell_at r "market_cap")) df))
         = true).
Proof.
  unfold _identify_opportunities. intros H.
  destruct (df_empty df); [injection H as <-; by split_and!|].
  apply bind_inv in H as (position & Hc1 & H). apply col_inv in Hc1 as [-> _].
  apply bind_inv in H as (value & Hvalue & H).
  apply bind_inv in H as (change & Hc2 & H). apply col_inv in Hc2 as [-> _].
  apply bind_inv in H as (volume & Hc3 & H). apply col_inv in Hc3 as [-> _].
  apply bind_inv in H as (growth & Hgrowth & H).
  apply bind_inv in H as (beta & Hc4 & H). apply col_inv in Hc4 as [-> _].
  apply bind_inv in H as (cap & Hc5 & H). apply col_inv in Hc5 as [-> _].
  apply bind_inv in H as (stable & Hstable & H).
  injection H as <-. cbn [value_opportunities growth_opportunities stable_opportunities].
  split_and!; intros es e Hes He.
  - destruct (ranked_inv _ _ _ _ _ _ es e Hvalue Hes He) as (r & Hr & ->).
    cbn [df_filter rows] in Hr. apply List_filter_elem in Hr as [Hr Hlt].
    apply List_filter_elem in Hr as [Hr _]. by exists r.
  - destruct (ranked_inv _ _ _ _ _ _ es e Hgrowth Hes He) as (r & Hr & ->).
    cbn [df_filter rows] in Hr. apply List_filter_elem in Hr as [Hr Hf].
    apply andb_true_iff in Hf as [Hf Hvol]. apply andb_true_iff in Hf as [Hch _].
    by exists r.
  - destruct (ranked_inv _ _ _ _ _ _ es e Hstable Hes He) as (r & Hr & ->).
    cbn [df_filter rows] in Hr. apply List_filter_elem in Hr as [Hr Hf].
    apply andb_true_iff in Hf as [Hf Hcap]. apply andb_true_iff in Hf as [_ Hbeta].
    by exists r.
Qed.

Lemma generate_investment_analysis_inv (now : string)
    (analysis_results : list CompanyAnalysis) (a : Analysis) :
  generate_investment_analysis now analysis_results = Ok (Full a) ->
  exists df_active,
    active_subset (pd_DataFrame analysis_results) = Ok df_active /\
    total_companies (summary_section a) = length analysis_results /\
    active_companies (summary_section a) = length (rows df_active) /\
    analysis_date (summary_section a) = now /\
    _analyze_market_overview df_active = Ok (market_overview a) /\
    _analyze_valuations df_active = Ok (valuation_analysis a) /\
    _analyze_risk_profile df_active = Ok (risk_analysis a) /\
    _analyze_performance df_active = Ok (performance_analysis a) /\
    _analyze_liquidity df_active = Ok (liquidity_analysis a) /\
    _identify_opportunities df_active = Ok (investment_opportunities a).
Proof.
  unfold generate_investment_analysis. destruct analysis_results as [|r0 rs]; [done|].
  intros H.
  apply bind_inv in H as (df_active & Hactive & H).
  apply bind_inv in H as (market & Hmarket & H).
  apply bind_inv in H as (valuation & Hvaluation & H).
  apply bind_inv in H as (risk & Hrisk & H).
  apply bind_inv in H as (performance & Hperformance & H).
  apply bind_inv in H as (liquidity & Hliquidity & H).
  apply bind_inv in H as (opportunities & Hopportunities & H).
  injection H as <-. exists df_active. by split_and!.
Qed.

(** ** The active subset in the opportunity lists *)

(** C9: a report is built from the active subset: the rows of the input whose
    last traded price is present and positive; a record whose price is absent
    or not positive is not in it; and every entry of the value, growth and
    stable lists is the restriction of an active row to the listed columns,
    so its last traded price is present and positive. *)
Theorem C9_active_subset_and_opportunities
    (now : string) (analysis_results : list CompanyAnalysis) (a : Analysis) :
  generate_investment_analysis now analysis_results = Ok (Full a) ->
  exists df_active,
    active_subset (pd_DataFrame analysis_results) = Ok df_active /\
    active_companies (summary_section a) = length (rows df_active) /\
    (forall r, r ∈ rows df_active <->
       r ∈ analysis_results /\
       exists p, numeric (cell_at r "last_traded_price") = Some p /\ 0 < p) /\
    (forall r,
       numeric (cell_at r "last_traded_price") = None \/
       (exists p, numeric (cell_at r "last_traded_price") = Some p /\ p <= 0) ->
       r ∉ rows df_active) /\
    (forall es e,
       value_opportunities (investment_opportunities a) = Some es \/
       growth_opportunities (investment_opportunities a) = Some es \/
       stable_opportunities (investment_opportunities a) = Some es ->
       e ∈ es ->
       exists r p,
         r ∈ rows df_active /\
         (forall c v, (c, v) ∈ e -> v = cell_at r c) /\
         assoc "last_traded_price" e = Some (Num p) /\ 0 < p).
Proof.
  intros H. apply generate_investment_analysis_inv in H
    as (df_active & Hactive & _ & Hcount & _ & _ & _ & _ & _ & _ & Hopp).
  exists df_active. split; [done|]. split; [done|].
  destruct (active_subset_inv _ _ Hactive) as (_ & _ & _ & Hrows).
  cbn [pd_DataFrame rows] in Hrows. split; [done|]. split.
  { intros r Hbad Hr. apply Hrows in Hr as (_ & p & Hp & Hpos).
    destruct Hbad as [Hnone|(p' & Hp' & Hle)]; [congruence|].
    assert (p' = p) as -> by congruence. by apply Qle_not_lt in Hle. }
  destruct (_identify_opportunities_inv _ _ Hopp) as (Hvalue & Hgrowth & Hstable).
  assert (Hentry : forall (cols : list string) (r : CompanyAnalysis) (e : entry),
    r ∈ rows df_active -> e = (fun c => (c, cell_at r c)) <$> cols ->
    assoc "last_traded_price" e = Some (cell_at r "last_traded_price") ->
    exists r p, r ∈ rows df_active /\ (forall c v, (c, v) ∈ e -> v = cell_at r c) /\
                assoc "last_traded_price" e = Some (Num p) /\ 0 < p).
  { intros cols r e Hr -> Hassoc.
    destruct (proj1 (Hrows r) Hr) as (_ & p & Hp & Hpos).
    exists r, p. split; [done|]. split.
    - intros c v Hcv. apply list_elem_of_fmap in Hcv as (c' & [= -> ->] & _). done.
    - apply numeric_Some in Hp. by rewrite Hassoc, Hp. }
  intros es e [Hes|[Hes|Hes]] He.
  - destruct (Hvalue es e Hes He) as (r & Hr & -> & _). by eapply Hentry.
  - destruct (Hgrowth es e Hes He) as (r & Hr & -> & _). by eapply Hentry.
  - destruct (Hstable es e Hes He) as (r & Hr & -> & _). by eapply Hentry.
Qed.

Lemma C9_active_subset_and_opportunities_witness :
  exists a df_active,
    generate_investment_analysis "2024-01-01 09:00:00" Sample.near_low_records
      = Ok (Full a) /\
    active_subset (pd_DataFrame Sample.near_low_records) = Ok df_active /\
    active_companies (summary_section a) = length (rows df_active) /\
    (forall es e,
       value_opportunities (investment_opportunities a) = Some es \/
       growth_opportunities (investment_opportunities a) = Some es \/
       stable_opportunities (investment_opportunities a) = Some es ->
       e ∈ es ->
       exists r p,
         r ∈ rows df_active /\
         (forall c v, (c, v) ∈ e -> v = cell_at r c) /\
         assoc "last_traded_price" e = Some (Num p) /\ 0 < p).
Proof.
  evar (a : Analysis).
  assert (Hgen : generate_investment_analysis "2024-01-01 09:00:00"
                   Sample.near_low_records = Ok (Full a)).
  { subst a. vm_compute. reflexivity. }
  destruct (C9_active_subset_and_opportunities _ _ _ Hgen)
    as (df_active & Hactive & Hcount & _ & _ & Hentries).
  exists a, df_active. by split_and!.
Defined.

(** ** Fields of the ranked entries *)

(** C4 (counterexample): the one sample record is near its year-to-date low
    and has no market capitalisation; it is ranked in the value list, and
    the ['market_cap'] field of its entry is NaN. *)
Lemma C4_value_entry_with_absent_market_cap :
  exists a e,
    generate_investment_analysis "2024-01-01 09:00:00" Sample.near_low_records
      = Ok (Full a) /\
    value_opportunities (investment_opportunities a) = Some [e] /\
    ("market_cap", NaN) ∈ e.
Proof.
  eexists _, _. split; [vm_compute; reflexivity|]. split; [reflexivity|].
  do 4 apply list_elem_of_further. apply list_elem_of_here.
Qed.

(** C4 (amended): in every report, each ranked entry has a present, positive
    last traded price and present values in the fields its list filters and
    sorts on: position_in_ytd_range (below 25) in the value list;
    change_percentage (above 5) and today_volume (positive) in the growth
    list; tri_asi_beta (below 1.0) and market_cap in the stable list. *)
Theorem C4_ranked_entries_have_their_keys
    (now : string) (analysis_results : list CompanyAnalysis) (a : Analysis) :
  generate_investment_analysis now analysis_results = Ok (Full a) ->
  (forall es e,
     value_opportunities (investment_opportunities a) = Some es -> e ∈ es ->
     exists price position,
       assoc "last_traded_price" e = Some (Num price) /\ 0 < price /\
       assoc "position_in_ytd_range" e = Some (Num position) /\ position < 25) /\
  (forall es e,
     growth_opportunities (investment_opportunities a) = Some es -> e ∈ es ->
     exists price change volume,
       assoc "last_traded_price" e = Some (Num price) /\ 0 < price /\
       assoc "change_percentage" e = Some (Num change) /\ 5 < change /\
       assoc "today_volume" e = Some (Num volume) /\ 0 < volume) /\
  (forall es e,
     stable_opportunities (investment_opportunities a) = Some es -> e ∈ es ->
     exists price beta cap,
       assoc "last_traded_price" e = Some (Num price) /\ 0 < price /\
       assoc "tri_asi_beta" e = Some (Num beta) /\ beta < 1.0 /\
       assoc "market_cap" e = Some (Num cap)).
Proof.
  intros H. apply generate_investment_analysis_inv in H
    as (df_active & Hactive & _ & _ & _ & _ & _ & _ & _ & _ & Hopp).
  destruct (active_subset_inv _ _ Hactive) as (_ & _ & _ & Hrows).
  destruct (_identify_opportunities_inv _ _ Hopp) as (Hvalue & Hgrowth & Hstable).
  split_and!; intros es e Hes He.
  - destruct (Hvalue es e Hes He) as (r & Hr & -> & Hlt).
    destruct (proj1 (Hrows r) Hr) as (_ & p & Hp & Hpos).
    apply cmp_lt_Some in Hlt as (q & Hq & Hq25).
    apply numeric_Some in Hp, Hq. exists p, q. cbn. rewrite Hp, Hq. done.
  - destruct (Hgrowth es e Hes He) as (r & Hr & -> & Hch & Hvol).
    destruct (proj1 (Hrows r) Hr) as (_ & p & Hp & Hpos).
    apply cmp_gt_Some in Hch as (c & Hc & Hc5), Hvol as (v & Hv & Hv0).
    apply numeric_Some in Hp, Hc, Hv. exists p, c, v. cbn. rewrite Hp, Hc, Hv. done.
  - destruct (Hstable es e Hes He) as (r & Hr & -> & Hbeta & Hcap).
    destruct (proj1 (Hrows r) Hr) as (_ & p & Hp & Hpos).
    apply cmp_lt_Some in Hbeta as (b & Hb & Hb1).
    destruct (numeric (cell_at r "market_cap")) as [m|] eqn:Hm; [|done].
    apply numeric_Some in Hp, Hb, Hm. exists p, b, m. cbn. rewrite Hp, Hb, Hm. done.
Qed.

Lemma C4_ranked_entries_have_their_keys_witness :
  exists a,
    generate_investment_analysis "2024-01-01 09:00:00" Sample.near_low_records
      = Ok (Full a) /\
    (forall es e,
       value_opportunities (investment_opportunities a) = Some es -> e ∈ es ->
       exists price position,
         assoc "last_traded_price" e = Some (Num price) /\ 0 < price /\
         assoc "position_in_ytd_range" e = Some (Num position) /\ position < 25).
Proof.
  evar (a : Analysis).
  assert (Hgen : generate_investment_analysis "2024-01-01 09:00:00"
                   Sample.near_low_records = Ok (Full a)).
  { subst a. vm_compute. reflexivity. }
  exists a. split; [exact Hgen|].
  exact (proj1 (C4_ranked_entries_have_their_keys _ _ _ Hgen)).
Defined.

(** * Further properties of the metric derivation *)

Lemma book_value_metric_spec (market_cap quantity_issued : pynum) :
  exists r, book_value_metric market_cap quantity_issued = Ok r /\
    forall v, r = Some v <->
      exists c n, market_cap = Some c /\ quantity_issued = Some n /\
                  ~ c == 0 /\ ~ n == 0 /\ v = c / n.
Proof.
  unfold book_value_metric.
  destruct (truthy market_cap && truthy quantity_issued) eqn:E.
  - apply andb_true_iff in E as [Hc Hn].
    apply truthy_Some in Hc as (c & -> & Hc), Hn as (n & -> & Hn).
    cbn [num]. res_simpl. unfold div.
    pose proof Hn as Hn'. apply Qeq_bool_false in Hn'. rewrite Hn'. res_simpl.
    eexists. split; [done|]. intros v. split.
    + intros [= <-]. by exists c, n.
    + by intros (c' & n' & [= <-] & [= <-] & _ & _ & ->).
  - exists None. split; [done|]. intros v. split; [done|].
    intros (c & n & -> & -> & Hc & Hn & _). exfalso.
    apply Qeq_bool_false in Hc, Hn. cbn [truthy] in E. by rewrite Hc, Hn in E.
Qed.

Lemma liquidity_metrics_spec (ytd_volume ytd_turnover last_price : pynum) :
  exists avg vs, liquidity_metrics ytd_volume ytd_turnover last_price = Ok (avg, vs) /\
    (forall a, avg = Some a <->
       exists v t, ytd_volume = Some v /\ ytd_turnover = Some t /\
                   ~ v == 0 /\ ~ t == 0 /\ a = t / v) /\
    (forall x, vs = Some x <->
       exists a p, avg = Some a /\ last_price = Some p /\ ~ p == 0 /\
                   x = (p - a) / a * 100).
Proof.
  unfold liquidity_metrics.
  destruct (truthy ytd_volume && truthy ytd_turnover) eqn:E.
  - apply andb_true_iff in E as [Hv Ht].
    apply truthy_Some in Hv as (v & -> & Hv), Ht as (t & -> & Ht).
    cbn [num]. res_simpl. unfold div at 1.
    pose proof Hv as Hv'. apply Qeq_bool_false in Hv'. rewrite Hv'. res_simpl.
    assert (Havg : ~ t / v == 0).
    { intros H. apply Ht. rewrite <- (Qmult_div_r t v) by done. rewrite H. ring. }
    assert (Hta : truthy (Some (t / v)) = true).
    { cbn [truthy]. apply negb_true_iff. by apply Qeq_bool_false. }
    rewrite Hta, andb_true_r.
    destruct (truthy last_price) eqn:Ep.
    + apply truthy_Some in Ep as (p & -> & Hp). rewrite pct_nonzero by done. res_simpl.
      do 2 eexists. split; [done|]. split.
      * intros a. split; [intros [= <-]; by exists v, t|].
        by intros (v' & t' & [= <-] & [= <-] & _ & _ & ->).
      * intros x. split; [intros [= <-]; by exists (t / v), p|].
        by intros (a & p' & [= <-] & [= <-] & _ & ->).
    + do 2 eexists. split; [done|]. split.
      * intros a. split; [intros [= <-]; by exists v, t|].
        by intros (v' & t' & [= <-] & [= <-] & _ & _ & ->).
      * intros x. split; [done|]. intros (a & p & _ & -> & Hp & _). exfalso.
        cbn [truthy] in Ep. apply negb_false_iff, Qeq_bool_iff in Ep. done.
  - exists None, None. split; [done|]. split.
    + intros a. split; [done|]. intros (v & t & -> & -> & Hv & Ht & _). exfalso.
      apply Qeq_bool_false in Hv, Ht. cbn [truthy] in E. by rewrite Hv, Ht in E.
    + intros x. split; [done|]. by intros (a & p & ? & _).
Qed.

(** The metrics together with the block each of them comes from. *)
Lemma calculate_investment_metrics_blocks (si : SymbolInfo.t) (bi : BetaInfo.t) :
  exists m, calculate_investment_metrics si bi = Ok m /\
    price_change_metric (get_default (SymbolInfo.lastTradedPrice si) 0)
                        (get_default (SymbolInfo.previousClose si) 0)
      = Ok (price_change_pct m) /\
    range_metrics (get_default (SymbolInfo.ytdHiPrice si) 0)
                  (get_default (SymbolInfo.ytdLowPrice si) 0)
                  (get_default (SymbolInfo.lastTradedPrice si) 0)
      = Ok (ytd_volatility m, position_in_ytd_range m) /\
    range_metrics (get_default (SymbolInfo.p12HiPrice si) 0)
                  (get_default (SymbolInfo.p12LowPrice si) 0)
                  (get_default (SymbolInfo.lastTradedPrice si) 0)
      = Ok (p12_volatility m, position_in_p12_range m) /\
    book_value_metric (get_default (SymbolInfo.marketCap si) 0)
                      (get_default (SymbolInfo.quantityIssued si) 0)
      = Ok (book_value_per_share m) /\
    liquidity_metrics (get_default (SymbolInfo.ytdShareVolume si) 0)
                      (get_default (SymbolInfo.ytdTurnover si) 0)
                      (get_default (SymbolInfo.lastTradedPrice si) 0)
      = Ok (avg_price_ytd m, price_vs_ytd_avg m) /\
    risk_of_beta (get (BetaInfo.triASIBetaValue bi)) = Ok (risk_category m).
Proof.
  unfold calculate_investment_metrics.
  destruct (price_change_metric_spec
              (get_default (SymbolInfo.lastTradedPrice si) 0)
              (get_default (SymbolInfo.previousClose si) 0)) as (r1 & -> & _).
  destruct (range_metrics_spec
              (get_default (SymbolInfo.ytdHiPrice si) 0)
              (get_default (SymbolInfo.ytdLowPrice si) 0)
              (get_default (SymbolInfo.lastTradedPrice si) 0)) as (v1 & p1 & -> & _).
  destruct (range_metrics_spec
              (get_default (SymbolInfo.p12HiPrice si) 0)
              (get_default (SymbolInfo.p12LowPrice si) 0)
              (get_default (SymbolInfo.lastTradedPrice si) 0)) as (v2 & p2 & -> & _).
  destruct (book_value_metric_total
              (get_default (SymbolInfo.marketCap si) 0)
              (get_default (SymbolInfo.quantityIssued si) 0)) as (r3 & ->).
  destruct (liquidity_metrics_spec
              (get_default (SymbolInfo.ytdShareVolume si) 0)
              (get_default (SymbolInfo.ytdTurnover si) 0)
              (get_default (SymbolInfo.lastTradedPrice si) 0)) as (a4 & x4 & -> & _).
  rewrite risk_of_beta_spec. res_simpl.
  eexists. split; [reflexivity|]. by cbn.
Qed.

(** A position in a range is derived only together with the volatility of
    that range. *)
Lemma range_metrics_position_needs_volatility (high low last_price : pynum)
    (vol pos : option Q) :
  range_metrics high low last_price = Ok (vol, pos) -> is_Some pos -> is_Some vol.
Proof.
  unfold range_metrics.
  destruct (truthy high && truthy low && ne high low); [|by intros [= <- <-] []].
  destruct (pct high low low) as [v|]; [|done]. res_simpl.
  destruct (truthy last_price); [|by intros [= <- <-]].
  destruct (num high) as [h|]; [|done]. destruct (num low) as [l|]; [|done].
  res_simpl. destruct (pct _ _ _); [|done]. by intros [= <- <-].
Qed.

(** X1: for every snapshot and beta record (numbers or null in every numeric
    field) the metric derivation returns a metrics dict: no division by zero
    and no arithmetic on [None] is reachable.  A position in the YTD or
    12-period range is present only together with the corresponding
    volatility, and [price_vs_ytd_avg] only together with [avg_price_ytd]. *)
Theorem metrics_never_raise (si : SymbolInfo.t) (bi : BetaInfo.t) :
  exists m, calculate_investment_metrics si bi = Ok m /\
    (is_Some (position_in_ytd_range m) -> is_Some (ytd_volatility m)) /\
    (is_Some (position_in_p12_range m) -> is_Some (p12_volatility m)) /\
    (is_Some (price_vs_ytd_avg m) -> is_Some (avg_price_ytd m)).
Proof.
  destruct (calculate_investment_metrics_blocks si bi)
    as (m & Hm & _ & Hytd & Hp12 & _ & Hliq & _).
  exists m. split; [done|]. split_and!.
  - by eapply range_metrics_position_needs_volatility.
  - by eapply range_metrics_position_needs_volatility.
  - destruct (liquidity_metrics_spec
                (get_default (SymbolInfo.ytdShareVolume si) 0)
                (get_default (SymbolInfo.ytdTurnover si) 0)
                (get_default (SymbolInfo.lastTradedPrice si) 0))
      as (avg & vs & Hr & _ & Hvs).
    rewrite Hr in Hliq. injection Hliq as <- <-.
    intros [x Hx]. apply Hvs in Hx as (a & _ & -> & _). by eexists.
Qed.

(** X3: the 12-period block mirrors the year-to-date one.  When p12High and
    p12Low are equal (or one of them is zero, null or missing) neither
    [p12_volatility] nor [position_in_p12_range] is present; otherwise
    p12_volatility = (high - low) / low * 100, and with a non-zero last price
    position_in_p12_range = (last - low) / (high - low) * 100. *)
Theorem p12_range_metrics (si : SymbolInfo.t) (bi : BetaInfo.t) :
  exists m, calculate_investment_metrics si bi = Ok m /\
    (truthy (get_default (SymbolInfo.p12HiPrice si) 0) &&
     truthy (get_default (SymbolInfo.p12LowPrice si) 0) &&
     ne (get_default (SymbolInfo.p12HiPrice si) 0)
        (get_default (SymbolInfo.p12LowPrice si) 0) = false ->
     p12_volatility m = None /\ position_in_p12_range m = None) /\
    (forall h l,
       get_default (SymbolInfo.p12HiPrice si) 0 = Some h ->
       get_default (SymbolInfo.p12LowPrice si) 0 = Some l ->
       ~ h == 0 -> ~ l == 0 -> ~ h == l ->
       p12_volatility m = Some ((h - l) / l * 100) /\
       (forall p,
          get_default (SymbolInfo.lastTradedPrice si) 0 = Some p -> ~ p == 0 ->
          position_in_p12_range m = Some ((p - l) / (h - l) * 100))).
Proof.
  destruct (calculate_investment_metrics_blocks si bi)
    as (m & Hm & _ & _ & Hp12 & _).
  exists m. split; [done|].
  destruct (range_metrics_spec
              (get_default (SymbolInfo.p12HiPrice si) 0)
              (get_default (SymbolInfo.p12LowPrice si) 0)
              (get_default (SymbolInfo.lastTradedPrice si) 0))
    as (vol & pos & Hr & Hnone & Hsome).
  rewrite Hr in Hp12. injection Hp12 as <- <-. by split.
Qed.

(** X4: [book_value_per_share] is present exactly when marketCap and
    quantityIssued are both non-zero numbers, and is then their quotient. *)
Theorem book_value_per_share_spec (si : SymbolInfo.t) (bi : BetaInfo.t) :
  exists m, calculate_investment_metrics si bi = Ok m /\
    forall v, book_value_per_share m = Some v <->
      exists c n,
        get_default (SymbolInfo.marketCap si) 0 = Some c /\
        get_default (SymbolInfo.quantityIssued si) 0 = Some n /\
        ~ c == 0 /\ ~ n == 0 /\ v = c / n.
Proof.
  destruct (calculate_investment_metrics_blocks si bi)
    as (m & Hm & _ & _ & _ & Hbook & _).
  exists m. split; [done|].
  destruct (book_value_metric_spec
              (get_default (SymbolInfo.marketCap si) 0)
              (get_default (SymbolInfo.quantityIssued si) 0)) as (r & Hr & Hspec).
  rewrite Hr in Hbook. by injection Hbook as <-.
Qed.

(** X5: [avg_price_ytd] is present exactly when ytdShareVolume and
    ytdTurnover are both non-zero numbers, and is then turnover / volume;
    [price_vs_ytd_avg] is present exactly when moreover the last price is a
    non-zero number, and is then (last - avg) / avg * 100. *)
Theorem liquidity_metrics_of_snapshot (si : SymbolInfo.t) (bi : BetaInfo.t) :
  exists m, calculate_investment_metrics si bi = Ok m /\
    (forall a, avg_price_ytd m = Some a <->
       exists v t,
         get_default (SymbolInfo.ytdShareVolume si) 0 = Some v /\
         get_default (SymbolInfo.ytdTurnover si) 0 = Some t /\
         ~ v == 0 /\ ~ t == 0 /\ a = t / v) /\
    (forall x, price_vs_ytd_avg m = Some x <->
       exists a p,
         avg_price_ytd m = Some a /\
         get_default (SymbolInfo.lastTradedPrice si) 0 = Some p /\ ~ p == 0 /\
         x = (p - a) / a * 100).
Proof.
  destruct (calculate_investment_metrics_blocks si bi)
    as (m & Hm & _ & _ & _ & _ & Hliq & _).
  exists m. split; [done|].
  destruct (liquidity_metrics_spec
              (get_default (SymbolInfo.ytdShareVolume si) 0)
              (get_default (SymbolInfo.ytdTurnover si) 0)
              (get_default (SymbolInfo.lastTradedPrice si) 0))
    as (avg & vs & Hr & Havg & Hvs).
  rewrite Hr in Hliq. by injection Hliq as <- <-.
Qed.

(** X6: when the year-to-date low is positive and below the high, and the
    last price lies between them, the YTD volatility is positive and the
    position in the YTD range is a percentage between 0 and 100. *)
Theorem ytd_position_within_bounds (si : SymbolInfo.t) (bi : BetaInfo.t) (h l p : Q) :
  get_default (SymbolInfo.ytdHiPrice si) 0 = Some h ->
  get_default (SymbolInfo.ytdLowPrice si) 0 = Some l ->
  get_default (SymbolInfo.lastTradedPrice si) 0 = Some p ->
  0 < l -> l < h -> l <= p -> p <= h ->
  exists m vol pos,
    calculate_investment_metrics si bi = Ok m /\
    ytd_volatility m = Some vol /\ 0 < vol /\
    position_in_ytd_range m = Some pos /\ 0 <= pos /\ pos <= 100.
Proof.
  intros Hh Hl Hp Hl0 Hlh Hlp Hph.
  destruct (calculate_investment_metrics_blocks si bi) as (m & Hm & _ & Hytd & _).
  destruct (range_metrics_spec
              (get_default (SymbolInfo.ytdHiPrice si) 0)
              (get_default (SymbolInfo.ytdLowPrice si) 0)
              (get_default (SymbolInfo.lastTradedPrice si) 0))
    as (vol & pos & Hr & _ & Hsome).
  rewrite Hr in Hytd. injection Hytd as -> ->.
  assert (Hne_h : ~ h == 0) by (intros E; rewrite E in Hlh; lra).
  assert (Hne_l : ~ l == 0) by (intros E; rewrite E in Hl0; lra).
  assert (Hne_hl : ~ h == l) by (intros E; rewrite E in Hlh; lra).
  assert (Hne_p : ~ p == 0) by (intros E; rewrite E in Hlp; lra).
  destruct (Hsome h l Hh Hl Hne_h Hne_l Hne_hl) as [Hvol Hpos].
  specialize (Hpos p Hp Hne_p).
  exists m, ((h - l) / l * 100), ((p - l) / (h - l) * 100).
  split; [done|]. split; [done|]. split.
  { apply Qmult_lt_0_compat; [|lra]. apply Qlt_shift_div_l; lra. }
  split; [done|]. split.
  - apply Qmult_le_0_compat; [|lra]. apply Qle_shift_div_l; lra.
  - assert (H1 : (p - l) / (h - l) <= 1) by (apply Qle_shift_div_r; lra).
    apply Qle_trans with (1 * 100); [|lra].
    apply Qmult_le_compat_r; [done | lra].
Qed.

Lemma ytd_position_within_bounds_witness :
  exists m vol pos,
    calculate_investment_metrics Sample.near_low BetaInfo.empty = Ok m /\
    ytd_volatility m = Some vol /\ 0 < vol /\
    position_in_ytd_range m = Some pos /\ 0 <= pos /\ pos <= 100.
Proof.
  apply (ytd_position_within_bounds Sample.near_low BetaInfo.empty 100 9 10);
    try reflexivity; lra.
Defined.

(** * Further properties of the extraction *)

(** With object (or missing) symbol and beta records the body of the [try]
    block returns. *)
Lemma extract_body_Ok (symbol_info : field SymbolInfo.t) (beta_info : field BetaInfo.t)
    (logo : field LogoInfo.t) (now : string) :
  symbol_info <> Null -> beta_info <> Null ->
  let si := default SymbolInfo.empty (get symbol_info) in
  let bi := default BetaInfo.empty (get beta_info) in
  exists b m,
    extract_body (CSE_API.Object symbol_info beta_info logo) now = Ok (Extracted b m) /\
    calculate_investment_metrics si bi = Ok m /\
    Base.symbol b = get (SymbolInfo.symbol si) /\
    Base.last_traded_price b = get (SymbolInfo.lastTradedPrice si) /\
    Base.change_percentage b = get (SymbolInfo.changePercentage si) /\
    Base.market_cap b = get (SymbolInfo.marketCap si) /\
    Base.today_volume b = get (SymbolInfo.tdyShareVolume si) /\
    Base.tri_asi_beta b = get (BetaInfo.triASIBetaValue bi) /\
    Base.analysis_timestamp b = now /\
    (Base.has_logo b = true <-> is_Some (Base.logo_path b)).
Proof.
  intros Hs Hb. cbn zeta.
  set (si := default SymbolInfo.empty (get symbol_info)).
  set (bi := default BetaInfo.empty (get beta_info)).
  destruct (calculate_investment_metrics_spec si bi) as (m & Hm & _).
  assert (Hsi : get_default symbol_info SymbolInfo.empty = Some si)
    by by destruct symbol_info.
  assert (Hbi : get_default beta_info BetaInfo.empty = Some bi)
    by by destruct beta_info.
  unfold extract_body.
  rewrite Hsi, Hbi. cbn [as_dict]. res_simpl. rewrite Hm. res_simpl.
  eexists _, m. split; [reflexivity|]. cbn.
  split_and!; try done. apply bool_decide_eq_true.
Qed.

(** X7: [extract_comprehensive_data] never raises; it returns the empty dict
    exactly when the response body is not a JSON object or carries [null]
    under ['reqSymbolInfo'] or ['reqSymbolBetaInfo'].  A missing key is
    not an error: it is read as an empty dict. *)
Theorem extract_returns_empty_iff (data : CSE_API.company_info) (now : string) :
  extract_comprehensive_data data now = Empty <->
  data = CSE_API.NotAnObject \/
  exists symbol_info beta_info logo,
    data = CSE_API.Object symbol_info beta_info logo /\
    (symbol_info = Null \/ beta_info = Null).
Proof.
  destruct data as [|sf bf lf]; [split; [by left | done]|].
  split.
  - intros H. right. exists sf, bf, lf. split; [done|].
    assert (Hs : sf = Null \/ sf <> Null) by (destruct sf; auto).
    assert (Hb : bf = Null \/ bf <> Null) by (destruct bf; auto).
    destruct Hs as [?|Hs]; [by left|]. destruct Hb as [?|Hb]; [by right|].
    exfalso. destruct (extract_body_Ok sf bf lf now Hs Hb) as (b & m & Hex & _).
    unfold extract_comprehensive_data in H. by rewrite Hex in H.
  - intros [?|(sf' & bf' & lf' & [= <- <- <-] & [->| ->])]; [done| |].
    + done.
    + unfold extract_comprehensive_data, extract_body. by destruct sf.
Qed.



(** * Further properties of the per-company loop *)

Lemma requests_app (t t' : list event) : requests (t ++ t') = requests t ++ requests t'.
Proof. unfold requests. apply List.filter_app. Qed.

Lemma enumerate_length {A} (start : nat) (xs : list A) :
  length (enumerate start xs) = length xs.
Proof.
  revert start. induction xs as [|x xs IH]; intros start; [done|].
  cbn. by rewrite IH.
Qed.

Lemma fetch_outcomes_partition (net : CSE_API.info_network) (clock : nat -> string)
    (jcs : list (nat * company)) :
  (length (omap (fun jc => fetch_analysis net clock jc.1 jc.2) jcs) +
   length (omap (fun jc => fetch_failure net jc.1 jc.2) jcs))%nat = length jcs.
Proof.
  induction jcs as [|[j c] jcs IH]; [done|].
  cbn [omap list_omap fst snd]. unfold fetch_analysis at 1, fetch_failure at 1.
  destruct (get_company_summary net j (dict_get c "symbol")); cbn [length]; lia.
Qed.

Lemma requests_of_complete_trace (delay : Q) (total : nat) (companies : list company) :
  forall i,
    requests (concat ((fun jc => Request "companyInfoSummery" (dict_get jc.2 "symbol") ::
                                 if (jc.1 <? total)%nat then [Sleep delay] else [])
                      <$> enumerate i companies)) =
    (fun c => Request "companyInfoSummery" (dict_get c "symbol")) <$> companies.
Proof.
  induction companies as [|c rest IH]; intros i; [done|].
  cbn [enumerate fmap list_fmap concat fst snd]. rewrite requests_app, IH.
  by destruct (i <? total)%nat.
Qed.

(** X9: when no progress display raises, a run over the whole company list
    returns normally and splits the companies, in order, between
    [analysis_results] (successful fetches) and [failed_requests] (failed
    ones): the two lists grow by as many entries as there are companies, and
    every company is requested exactly once, in order. *)
Theorem analyze_companies_partitions_companies
    (net : CSE_API.info_network) (clock : nat -> string) (self : analyzer) (delay : Q) :
  (forall j c data, (j, c) ∈ enumerate 1 (company_data self) ->
     get_company_summary net j (dict_get c "symbol") = SummaryOk data ->
     display_metrics (extract_comprehensive_data data (clock j)) = Ok ()) ->
  exists self',
    analyze_companies net clock self None delay = (self', None) /\
    company_data self' = company_data self /\
    analysis_results self' =
      analysis_results self ++
      omap (fun jc => fetch_analysis net clock jc.1 jc.2)
           (enumerate 1 (company_data self)) /\
    failed_requests self' =
      failed_requests self ++
      omap (fun jc => fetch_failure net jc.1 jc.2) (enumerate 1 (company_data self)) /\
    (length (analysis_results self') + length (failed_requests self') =
     length (analysis_results self) + length (failed_requests self) +
     length (company_data self))%nat /\
    requests (trace self') =
      (fun c => Request "companyInfoSummery" (dict_get c "symbol")) <$> company_data self.
Proof.
  intros Hdisplay. unfold analyze_companies.
  destruct (company_data self) as [|c0 cs] eqn:Hcd.
  { eexists. split; [reflexivity|]. cbn. rewrite !app_nil_r. split_and!; first [done | lia]. }
  rewrite <- Hcd in *.
  edestruct (analyze_loop_completes net clock delay (length (company_data self))
               (company_data self) 1
               (mkAnalyzer (company_data self) (analysis_results self)
                           (failed_requests self) []))
    as (self' & Hrun & Hcd' & Hres & Hfail & Htrace); [exact Hdisplay|].
  cbn [company_data analysis_results failed_requests trace app] in *.
  exists self'. split; [done|]. split; [done|]. split; [done|]. split; [done|]. split.
  - rewrite Hres, Hfail, !length_app.
    pose proof (fetch_outcomes_partition net clock (enumerate 1 (company_data self))) as Hp.
    rewrite enumerate_length in Hp. lia.
  - rewrite Htrace. apply requests_of_complete_trace.
Qed.

Lemma analyze_companies_partitions_companies_witness :
  exists self',
    analyze_companies Sample.net_second_fails Sample.clock Sample.self None 1
      = (self', None) /\
    (length (analysis_results self') + length (failed_requests self') = 3)%nat /\
    length (requests (trace self')) = 3%nat.
Proof.
  destruct (analyze_companies_partitions_companies
              Sample.net_second_fails Sample.clock Sample.self 1)
    as (self' & Hrun & _ & _ & _ & Hlen & Hreq).
  - intros j c data Hin Hfetch.
    repeat (apply elem_of_cons in Hin as [[= -> ->]|Hin];
            [vm_compute in Hfetch; try discriminate Hfetch;
             injection Hfetch as <-; reflexivity|]).
    by apply elem_of_nil in Hin.
  - exists self'. split; [done|]. split; [exact Hlen|]. by rewrite Hreq.
Defined.

(** X10: an iteration of the loop lets an exception escape exactly when the
    fetch succeeds with a JSON object whose symbol and beta records are not
    [null] and whose ['changePercentage'] is missing or [null]; the exception
    is then a [TypeError], raised after the record was appended. *)
Theorem analyze_one_raises_iff
    (net : CSE_API.info_network) (clock : nat -> string) (delay : Q)
    (total i : nat) (c : company) (self : analyzer) :
  let out := analyze_one net clock delay total i c self in
  ((exists e, out.2 = Some e) <->
   exists code symbol_info beta_info logo,
     net i (dict_get c "symbol") =
       CSE_API.HttpOk code (CSE_API.Object symbol_info beta_info logo) /\
     symbol_info <> Null /\ beta_info <> Null /\
     get (SymbolInfo.changePercentage
            (default SymbolInfo.empty (get symbol_info))) = None) /\
  (forall e, out.2 = Some e ->
     (exists msg, e = TypeError msg) /\
     length (analysis_results out.1) = S (length (analysis_results self)) /\
     failed_requests out.1 = failed_requests self).
Proof.
  cbn zeta. pose proof (analyze_one_spec net clock delay total i c self) as Hone.
  cbn zeta in Hone. unfold get_company_summary, CSE_API.get_company_info in Hone.
  destruct (net i (dict_get c "symbol")) as [code body|msg code|msg code] eqn:Hnet;
    cbn [CSE_API._make_request] in Hone.
  - cbn [fields] in Hone.
    assert (Hcases :
      (exists q, analysis_get_base (extract_comprehensive_data body (clock i))
                                   Base.change_percentage = Some q) \/
      (analysis_get_base (extract_comprehensive_data body (clock i))
                         Base.change_percentage = None /\
       exists sf bf lf, body = CSE_API.Object sf bf lf /\ sf <> Null /\ bf <> Null /\
         get (SymbolInfo.changePercentage (default SymbolInfo.empty (get sf))) = None)).
    { destruct body as [|sf bf lf]; [left; by eexists|].
      assert (Hs : sf = Null \/ sf <> Null) by (destruct sf; auto).
      assert (Hb : bf = Null \/ bf <> Null) by (destruct bf; auto).
      destruct Hs as [->|Hs]; [left; by eexists|].
      destruct Hb as [->|Hb].
      { left. unfold extract_comprehensive_data, extract_body.
        destruct sf; by eexists. }
      destruct (extract_body_Ok sf bf lf (clock i) Hs Hb)
        as (b & m & Hex & _ & _ & _ & Hchange & _).
      unfold extract_comprehensive_data. rewrite Hex. cbn [analysis_get_base].
      rewrite Hchange.
      destruct (get (SymbolInfo.changePercentage _)) as [q|] eqn:E;
        [left; by eexists|].
      right. split; [done|]. by exists sf, bf, lf. }
    destruct Hcases as [[q Hq]|(Hnone & sf & bf & lf & -> & Hs & Hb & Hch)].
    + rewrite (display_metrics_Ok _ q Hq) in Hone. rewrite Hone. cbn [fst snd].
      split; [|by intros e]. split; [by intros [e ?]|].
      intros (code' & sf & bf & lf & [= _ ->] & Hs & Hb & Hch). exfalso.
      destruct (extract_body_Ok sf bf lf (clock i) Hs Hb)
        as (b & m & Hex & _ & _ & _ & Hchange & _).
      unfold extract_comprehensive_data in Hq. rewrite Hex in Hq.
      cbn [analysis_get_base] in Hq. congruence.
    + destruct (display_metrics_Raise _ Hnone) as [msg Hraise].
      rewrite Hraise in Hone. rewrite Hone. cbn [fst snd analysis_results failed_requests].
      split.
      * split; [|by eexists]. intros _. by exists code, sf, bf, lf.
      * intros e [= <-]. split; [by eexists|]. split; [|done].
        rewrite length_app. cbn. lia.
  - rewrite Hone. cbn [fst snd]. split; [|by intros e]. split; [by intros [e ?]|].
    by intros (? & ? & ? & ? & ? & _).
  - rewrite Hone. cbn [fst snd]. split; [|by intros e]. split; [by intros [e ?]|].
    by intros (? & ? & ? & ? & ? & _).
Qed.

Lemma analyze_loop_requests (net : CSE_API.info_network) (clock : nat -> string)
    (delay : Q) (total : nat) (companies : list company) :
  forall (i : nat) (self : analyzer),
    exists k,
      requests (trace (analyze_loop net clock delay total i companies self).1) =
      requests (trace self) ++
      ((fun c => Request "companyInfoSummery" (dict_get c "symbol")) <$> take k companies).
Proof.
  induction companies as [|c rest IH]; intros i self.
  - exists 0%nat. cbn. by rewrite app_nil_r.
  - cbn [analyze_loop].
    pose proof (analyze_one_trace net clock delay total i c self) as Hone.
    cbn zeta in Hone.
    assert (Hreq : requests (trace (analyze_one net clock delay total i c self).1) =
                   requests (trace self) ++
                   [Request "companyInfoSummery" (dict_get c "symbol")]).
    { destruct Hone as [(_ & _ & ->)|(_ & ->)]; by rewrite requests_app. }
    destruct (analyze_one net clock delay total i c self) as [self1 [e|]];
      cbn [fst snd] in *.
    + exists 1%nat. by rewrite Hreq.
    + destruct (IH (S i) self1) as [k Hk]. exists (S k).
      rewrite Hk, Hreq, <- app_assoc. done.
Qed.

(** X11: the [limit] argument.  A limit of 0 is falsy and means no limit:
    the run is the same as with [None].  With a positive limit [n] the
    requests made are for a prefix of the first [n] companies, so at most [n]
    requests are issued.  With an empty company list nothing is requested
    and the results are left as they were. *)
Theorem analyze_companies_limit
    (net : CSE_API.info_network) (clock : nat -> string) (self : analyzer) (delay : Q) :
  analyze_companies net clock self (Some 0%Z) delay =
    analyze_companies net clock self None delay /\
  (forall n, (0 < n)%Z ->
     let out := analyze_companies net clock self (Some n) delay in
     (exists k,
        requests (trace out.1) =
        (fun c => Request "companyInfoSummery" (dict_get c "symbol")) <$>
          take k (take (Z.to_nat n) (company_data self))) /\
     (length (requests (trace out.1)) <= Z.to_nat n)%nat) /\
  (company_data self = [] ->
   forall limit,
     let out := analyze_companies net clock self limit delay in
     out.2 = None /\ trace out.1 = [] /\
     analysis_results out.1 = analysis_results self /\
     failed_requests out.1 = failed_requests self).
Proof.
  split_and!.
  - unfold analyze_companies. by destruct (company_data self).
  - intros n Hn. cbn zeta. unfold analyze_companies.
    destruct (company_data self) as [|c0 cs] eqn:Hcd.
    { split; [exists 0%nat; by rewrite !take_nil|]. cbn. lia. }
    rewrite <- Hcd.
    assert (Hz : (n =? 0)%Z = false) by lia. rewrite Hz.
    unfold slice_to. assert (Hneg : (n <? 0)%Z = false) by lia. rewrite Hneg.
    match goal with |- context [analyze_loop net clock delay ?t 1 ?cs ?s] =>
      destruct (analyze_loop_requests net clock delay t cs 1 s) as [k Hk] end.
    cbn [trace requests List.filter app] in Hk. split; [by exists k|].
    rewrite Hk, length_fmap, !length_take. lia.
  - intros Hcd limit. cbn zeta. unfold analyze_companies. by rewrite Hcd.
Qed.

(** * Further properties of the roster loop *)

Lemma roster_step_all_companies (net : CSE_API.roster_network)
    (st : CSE_API.roster_state) (letter : string) :
  CSE_API.all_companies (CSE_API.roster_step net st letter) =
  CSE_API.all_companies st ++ roster_of_letter net letter.
Proof.
  unfold CSE_API.roster_step, roster_of_letter.
  destruct (CSE_API.get_companies_by_alphabet net letter) as [code body|e code].
  - destruct body as [[| |[|c cs]]|[|c cs]|]; cbn; by rewrite ?app_nil_r.
  - cbn. by rewrite app_nil_r.
Qed.

Lemma roster_loop_all_companies (net : CSE_API.roster_network) (letters : list string)
    (st : CSE_API.roster_state) :
  CSE_API.all_companies (foldl (CSE_API.roster_step net) st letters) =
  CSE_API.all_companies st ++ concat (roster_of_letter net <$> letters).
Proof.
  revert st. induction letters as [|l letters IH]; intros st; cbn.
  - by rewrite app_nil_r.
  - by rewrite IH, roster_step_all_companies, <- app_assoc.
Qed.

(** X12: the roster returned by [get_all_companies] is the concatenation, in
    the order A to Z, of what each letter contributes: the list under
    ['reqAlphabetical'] or the bare list of a successful response, nothing
    for a failed one.  A successful response of any other shape (an object
    without the key, [null] under the key, a scalar) contributes nothing and
    is not reported in [failed_requests]: every entry there is a letter
    whose request failed, with the error of that request. *)
Theorem get_all_companies_roster (net : CSE_API.roster_network) :
  let r := (CSE_API.get_all_companies net).1 in
  (CSE_API.data r).1 = concat (roster_of_letter net <$> CSE_API.ascii_uppercase) /\
  (forall c, c ∈ (CSE_API.data r).1 <->
     exists l, l ∈ CSE_API.ascii_uppercase /\ c ∈ roster_of_letter net l) /\
  (forall f, f ∈ CSE_API.result_failed_requests r ->
     CSE_API.letter f ∈ CSE_API.ascii_uppercase /\
     exists code,
       CSE_API.get_companies_by_alphabet net (CSE_API.letter f) =
       CSE_API.Failure (CSE_API.error f) code) /\
  (forall l code body,
     l ∈ CSE_API.ascii_uppercase ->
     CSE_API.get_companies_by_alphabet net l = CSE_API.Success code body ->
     forall f, f ∈ CSE_API.result_failed_requests r -> CSE_API.letter f <> l).
Proof.
  cbn zeta. unfold CSE_API.get_all_companies.
  generalize CSE_API.ascii_uppercase. intros letters.
  cbn [fst snd CSE_API.data CSE_API.result_failed_requests].
  destruct (roster_loop_spec net letters (CSE_API.mkRosterState [] [] []))
    as (Hf & _ & _).
  cbn zeta in Hf. cbn [CSE_API.failed_requests app] in Hf.
  rewrite roster_loop_all_companies. cbn [CSE_API.all_companies app].
  assert (Hfailed : forall f,
    f ∈ CSE_API.failed_requests
          (foldl (CSE_API.roster_step net) (CSE_API.mkRosterState [] [] []) letters) ->
    CSE_API.letter f ∈ letters /\
    exists code, CSE_API.get_companies_by_alphabet net (CSE_API.letter f) =
                 CSE_API.Failure (CSE_API.error f) code).
  { intros f Hin. rewrite Hf in Hin. apply list_elem_of_omap in Hin as (l & Hl & Hfl).
    destruct (CSE_API.get_companies_by_alphabet net l) as [|e code] eqn:E; [done|].
    injection Hfl as <-. cbn. split; [done|]. by exists code. }
  split_and!; [done| |done|].
  - intros c. rewrite list_elem_of_In, in_concat. split.
    + intros (cs & Hcs & Hc). apply list_elem_of_In, list_elem_of_fmap in Hcs
        as (l & -> & Hl). exists l. split; [done|]. by apply list_elem_of_In.
    + intros (l & Hl & Hc). exists (roster_of_letter net l). split.
      * apply list_elem_of_In. by apply list_elem_of_fmap_2.
      * by apply list_elem_of_In.
  - intros l code body Hl Hok f Hin Heq. destruct (Hfailed f Hin) as (_ & code' & E).
    rewrite Heq in E. congruence.
Qed.

(** * Further properties of the aggregation *)

Lemma filter_partition3 {A} (p q r : A -> bool) (l : list A) :
  (forall x, x ∈ l -> (Nat.b2n (p x) + Nat.b2n (q x) + Nat.b2n (r x) = 1)%nat) ->
  (length (List.filter p l) + length (List.filter q l) + length (List.filter r l)
   = length l)%nat.
Proof.
  induction l as [|x l IH]; intros H; [done|].
  assert (Hx := H x (list_elem_of_here x l)).
  assert (Hl : forall y, y ∈ l ->
    (Nat.b2n (p y) + Nat.b2n (q y) + Nat.b2n (r y) = 1)%nat).
  { intros y Hy. apply H. by right. }
  specialize (IH Hl). cbn [List.filter].
  destruct (p x), (q x), (r x); cbn [Nat.b2n length] in *; lia.
Qed.

Lemma filter_partition4 {A} (p q r s : A -> bool) (l : list A) :
  (forall x, x ∈ l ->
     (Nat.b2n (p x) + Nat.b2n (q x) + Nat.b2n (r x) + Nat.b2n (s x) = 1)%nat) ->
  (length (List.filter p l) + length (List.filter q l) + length (List.filter r l) +
   length (List.filter s l) = length l)%nat.
Proof.
  induction l as [|x l IH]; intros H; [done|].
  assert (Hx := H x (list_elem_of_here x l)).
  assert (Hl : forall y, y ∈ l ->
    (Nat.b2n (p y) + Nat.b2n (q y) + Nat.b2n (r y) + Nat.b2n (s y) = 1)%nat).
  { intros y Hy. apply H. by right. }
  specialize (IH Hl). cbn [List.filter].
  destruct (p x), (q x), (r x), (s x); cbn [Nat.b2n length] in *; lia.
Qed.

Lemma elem_of_length_pos {A} (x : A) (l : list A) : x ∈ l -> (0 < length l)%nat.
Proof. destruct l; [by intros ?%elem_of_nil | cbn; lia]. Qed.

Lemma Qle_bool_negb_Qltb (x y : Q) : Qle_bool x y = negb (Qltb y x).
Proof. unfold Qltb. by rewrite negb_involutive. Qed.

Lemma notna_true (v : pynum) : notna v = true <-> exists q, v = Some q.
Proof.
  destruct v as [q|]; cbn.
  - split; [by exists q | done].
  - split; [done | by intros [q ?]].
Qed.

(** X13: the four buckets of the beta histogram are contiguous and
    exhaustive: they add up to the number of rows whose beta is present, and
    a row whose beta is at most 0.5 (zero and negative values included) is
    counted as very low risk. *)
Theorem risk_histogram_partitions (df : DataFrame) (p : BetaProfile) :
  _analyze_risk_profile df = Ok (RiskProfile p) ->
  (high_risk p + medium_risk p + low_risk p + very_low_risk p =
   length (List.filter (fun r => notna (numeric (cell_at r "tri_asi_beta"))) (rows df)))%nat /\
  very_low_risk p =
    length (List.filter
              (fun r => cmp_le (numeric (cell_at r "tri_asi_beta")) (Some 0.5)) (rows df)) /\
  ((exists r b, r ∈ rows df /\ numeric (cell_at r "tri_asi_beta") = Some b /\ b <= 0.5) ->
   (0 < very_low_risk p)%nat).
Proof.
  unfold _analyze_risk_profile. intros H.
  destruct (df_empty df); [done|].
  apply bind_inv in H as (beta & Hcol & H). apply col_inv in Hcol as [-> _].
  destruct (df_empty (df_filter _ df)); [done|].
  injection H as <-. cbn [high_risk medium_risk low_risk very_low_risk].
  unfold count. cbn [df_filter rows].
  set (with_beta := List.filter _ (rows df)).
  assert (Hvery : length (List.filter
            (fun r => cmp_le (numeric (cell_at r "tri_asi_beta")) (Some 0.5)) with_beta) =
          length (List.filter
            (fun r => cmp_le (numeric (cell_at r "tri_asi_beta")) (Some 0.5)) (rows df))).
  { subst with_beta. induction (rows df) as [|r l IH]; [done|]. cbn [List.filter].
    destruct (numeric (cell_at r "tri_asi_beta")) as [b|] eqn:E.
    - rewrite notna_Some. cbn [List.filter]. rewrite E.
      destruct (cmp_le (Some b) (Some 0.5)); cbn [length]; by rewrite IH.
    - cbn. apply IH. }
  split_and!.
  - apply filter_partition4. intros r Hr.
    apply List_filter_elem in Hr as [_ Hr]. apply notna_true in Hr as [b Hb].
    rewrite Hb. cbn [cmp_gt cmp_le]. rewrite !Qle_bool_negb_Qltb.
    destruct (Qltb 1.5 b) eqn:G1, (Qltb 1.0 b) eqn:G2, (Qltb 0.5 b) eqn:G3;
      try reflexivity; exfalso;
      rewrite ?Qltb_lt, ?Qltb_ge in *; lra.
  - exact Hvery.
  - intros (r & b & Hr & Hb & Hle). rewrite Hvery.
    assert (Hin : r ∈ List.filter
              (fun r => cmp_le (numeric (cell_at r "tri_asi_beta")) (Some 0.5)) (rows df)).
    { apply List_filter_elem. split; [done|]. rewrite Hb. by apply Qle_bool_iff. }
    by eapply elem_of_length_pos.
Qed.

(** X14: the daily performance counts are exhaustive: gainers, losers and
    unchanged add up to the number of rows whose change percentage is
    present. *)
Theorem performance_counts_partition (df : DataFrame) (p : DailyPerformance) :
  _analyze_performance df = Ok (Some p) ->
  (gainers p + losers p + unchanged p =
   length (List.filter (fun r => notna (numeric (cell_at r "change_percentage")))
                       (rows df)))%nat.
Proof.
  unfold _analyze_performance. intros H.
  destruct (df_empty df); [done|].
  apply bind_inv in H as (change & Hcol & H). apply col_inv in Hcol as [-> _].
  injection H as <-. cbn [gainers losers unchanged].
  unfold count. cbn [df_filter rows].
  apply filter_partition3. intros r Hr.
  apply List_filter_elem in Hr as [_ Hr]. apply notna_true in Hr as [c Hc].
  rewrite Hc. cbn [cmp_gt cmp_lt cmp_eq].
  destruct (Qltb 0 c) eqn:G1, (Qltb c 0) eqn:G2, (Qeq_bool c 0) eqn:G3;
    try reflexivity; exfalso;
    rewrite ?Qltb_lt, ?Qltb_ge, ?Qeq_bool_iff, ?Qeq_bool_false in *; lra.
Qed.

(** X15: the year-to-date position buckets are exhaustive: near highs
    (above 80), mid range (20 to 80) and near lows (below 20) add up to the
    number of rows whose position is present. *)
Theorem valuation_position_partition (df : DataFrame) (v : ValuationAnalysis) :
  _analyze_valuations df = Ok (Some v) ->
  (near_highs v + mid_range v + near_lows v =
   length (List.filter (fun r => notna (numeric (cell_at r "position_in_ytd_range")))
                       (rows df)))%nat.
Proof.
  unfold _analyze_valuations. intros H.
  destruct (df_empty df); [done|].
  apply bind_inv in H as (position & Hcol & H). apply col_inv in Hcol as [-> _].
  destruct (df_empty (df_filter _ df)); [done|].
  apply bind_inv in H as (volatility & _ & H).
  injection H as <-. cbn [near_highs mid_range near_lows].
  unfold count. cbn [df_filter rows].
  apply filter_partition3. intros r Hr.
  apply List_filter_elem in Hr as [_ Hr]. apply notna_true in Hr as [x Hx].
  rewrite Hx. cbn [cmp_gt cmp_lt cmp_ge cmp_le]. rewrite !Qle_bool_negb_Qltb.
  destruct (Qltb 80 x) eqn:G1, (Qltb x 20) eqn:G2;
    try reflexivity; exfalso;
    rewrite ?Qltb_lt, ?Qltb_ge in *; lra.
Qed.

Lemma risk_histogram_partitions_witness :
  exists df p,
    active_subset (pd_DataFrame Sample.market) = Ok df /\
    _analyze_risk_profile df = Ok (RiskProfile p) /\
    (high_risk p + medium_risk p + low_risk p + very_low_risk p =
     length (List.filter (fun r => notna (numeric (cell_at r "tri_asi_beta")))
                         (rows df)))%nat /\
    very_low_risk p = 2%nat.
Proof.
  evar (df : DataFrame). evar (p : BetaProfile).
  assert (Hdf : active_subset (pd_DataFrame Sample.market) = Ok df)
    by (subst df; vm_compute; reflexivity).
  assert (Hp : _analyze_risk_profile df = Ok (RiskProfile p))
    by (subst df p; vm_compute; reflexivity).
  exists df, p. split; [exact Hdf|]. split; [exact Hp|].
  split; [exact (proj1 (risk_histogram_partitions df p Hp)) | reflexivity].
Defined.

Lemma performance_counts_partition_witness :
  exists df p,
    active_subset (pd_DataFrame Sample.market) = Ok df /\
    _analyze_performance df = Ok (Some p) /\
    (gainers p + losers p + unchanged p =
     length (List.filter (fun r => notna (numeric (cell_at r "change_percentage")))
                         (rows df)))%nat.
Proof.
  evar (df : DataFrame). evar (p : DailyPerformance).
  assert (Hdf : active_subset (pd_DataFrame Sample.market) = Ok df)
    by (subst df; vm_compute; reflexivity).
  assert (Hp : _analyze_performance df = Ok (Some p))
    by (subst df p; vm_compute; reflexivity).
  exists df, p. split; [exact Hdf|]. split; [exact Hp|].
  exact (performance_counts_partition df p Hp).
Defined.

Lemma valuation_position_partition_witness :
  exists df v,
    active_subset (pd_DataFrame Sample.market) = Ok df /\
    _analyze_valuations df = Ok (Some v) /\
    (near_highs v + mid_range v + near_lows v =
     length (List.filter (fun r => notna (numeric (cell_at r "position_in_ytd_range")))
                         (rows df)))%nat.
Proof.
  evar (df : DataFrame). evar (v : ValuationAnalysis).
  assert (Hdf : active_subset (pd_DataFrame Sample.market) = Ok df)
    by (subst df; vm_compute; reflexivity).
  assert (Hv : _analyze_valuations df = Ok (Some v))
    by (subst df v; vm_compute; reflexivity).
  exists df, v. split; [exact Hdf|]. split; [exact Hv|].
  exact (valuation_position_partition df v Hv).
Defined.

(** X16: the summary counts of a report: total_companies is the number of
    records, active_companies the number of records with a present, positive
    last traded price, and active and inactive companies add up to the
    total. *)
Theorem summary_counts (now : string) (analysis_results : list CompanyAnalysis)
    (a : Analysis) :
  generate_investment_analysis now analysis_results = Ok (Full a) ->
  total_companies (summary_section a) = length analysis_results /\
  active_companies (summary_section a) =
    length (List.filter
              (fun r => notna (numeric (cell_at r "last_traded_price")) &&
                        cmp_gt (numeric (cell_at r "last_traded_price")) (Some 0))
              analysis_results) /\
  (active_companies (summary_section a) + inactive_companies (summary_section a) =
   total_companies (summary_section a))%nat.
Proof.
  unfold generate_investment_analysis.
  destruct analysis_results as [|r0 rs]; [done|]. intros H.
  apply bind_inv in H as (df_active & Hactive & H).
  apply bind_inv in H as (market & _ & H).
  apply bind_inv in H as (valuation & _ & H).
  apply bind_inv in H as (risk & _ & H).
  apply bind_inv in H as (performance & _ & H).
  apply bind_inv in H as (liquidity & _ & H).
  apply bind_inv in H as (opportunities & _ & H).
  injection H as <-.
  cbn [summary_section total_companies active_companies inactive_companies
       pd_DataFrame rows].
  unfold active_subset in Hactive. apply bind_inv in Hactive as (price & Hcol & Hactive).
  apply col_inv in Hcol as [-> _]. injection Hactive as <-.
  cbn [df_filter rows pd_DataFrame]. split; [done|]. split; [done|].
  pose proof (sublist_length _ _ (List_filter_sublist
    (fun r => notna (numeric (cell_at r "last_traded_price")) &&
              cmp_gt (numeric (cell_at r "last_traded_price")) (Some 0)) (r0 :: rs))) as Hle.
  cbn [length] in Hle. set (n := length (List.filter _ (r0 :: rs))) in *. lia.
Qed.

Lemma summary_counts_witness :
  exists a,
    generate_investment_analysis "2024-01-01 09:00:00" Sample.market = Ok (Full a) /\
    total_companies (summary_section a) = 5%nat /\
    active_companies (summary_section a) = 4%nat /\
    (active_companies (summary_section a) + inactive_companies (summary_section a) =
     total_companies (summary_section a))%nat.
Proof.
  evar (a : Analysis).
  assert (Hgen : generate_investment_analysis "2024-01-01 09:00:00" Sample.market
                 = Ok (Full a)) by (subst a; vm_compute; reflexivity).
  exists a. split; [exact Hgen|].
  destruct (summary_counts _ _ _ Hgen) as (Htotal & Hactive & Hsum).
  split; [exact Htotal|]. split; [reflexivity | exact Hsum].
Defined.

(** ** Missing columns *)

Lemma column_inv (records : list CompanyAnalysis) (c : string) :
  c ∈ columns (pd_DataFrame records) -> exists r, r ∈ records /\ c ∈ keys r.
Proof.
  cbn [pd_DataFrame columns]. rewrite elem_of_remove_dups, list_elem_of_In, in_concat.
  intros (ks & Hks & Hc). apply list_elem_of_In, list_elem_of_fmap in Hks as (r & -> & Hr).
  exists r. split; [done|]. by apply list_elem_of_In.
Qed.

Lemma keys_of_empty (r : CompanyAnalysis) (c : string) :
  fields r = Empty -> c ∈ keys r -> c = "source_data".
Proof.
  unfold keys, items. intros ->. cbn [app].
  destruct (source_data r); cbn; [|by intros ?%elem_of_nil].
  by intros ?%list_elem_of_singleton.
Qed.

Lemma numeric_cell_extracted (r : CompanyAnalysis) (c : string) (q : Q) :
  numeric (cell_at r c) = Some q -> exists b m, fields r = Extracted b m.
Proof.
  destruct (fields r) as [|b m] eqn:E; [|by eexists _, _].
  unfold cell_at, items. rewrite E. cbn [app].
  destruct (source_data r); cbn; [|done]. by destruct (String.eqb c "source_data").
Qed.

(** A record that was extracted has every key of [base_data]. *)
Lemma base_keys (r : CompanyAnalysis) (b : Base.t) (m : Metrics) (c : string) :
  fields r = Extracted b m ->
  c ∈ ["symbol"; "name"; "last_traded_price"; "change_percentage"; "today_volume";
       "today_turnover"; "market_cap"; "tri_asi_beta"; "ytd_high"; "ytd_low"] ->
  c ∈ keys r.
Proof.
  intros E Hc. unfold keys, items. rewrite E. rewrite !fmap_app.
  apply elem_of_app. left. apply elem_of_app. left.
  cbn [base_items fmap list_fmap fst].
  repeat (apply elem_of_cons in Hc as [->|Hc];
          [apply (bool_decide_unpack _); vm_compute; exact I|]).
  by apply elem_of_nil in Hc.
Qed.

Lemma df_empty_false (df : DataFrame) (r : CompanyAnalysis) (c : string) :
  r ∈ rows df -> c ∈ columns df -> df_empty df = false.
Proof.
  unfold df_empty. destruct (rows df); [by intros ?%elem_of_nil|].
  destruct (columns df); [by intros _ ?%elem_of_nil | done].
Qed.

Lemma List_filter_none {A} (f : A -> bool) (l : list A) :
  (forall x, x ∈ l -> f x = false) -> List.filter f l = [].
Proof.
  induction l as [|x l IH]; intros H; [done|]. cbn [List.filter].
  rewrite (H x) by by left. apply IH. intros y Hy. apply H. by right.
Qed.

(** X17: when every extraction failed, so that every record is the empty
    dict (with or without its ['source_data']), the aggregation does not
    return a report: it raises [KeyError] on ['last_traded_price']. *)
Theorem generate_raises_when_no_record_was_extracted
    (now : string) (analysis_results : list CompanyAnalysis) :
  analysis_results <> [] ->
  (forall r, r ∈ analysis_results -> fields r = Empty) ->
  generate_investment_analysis now analysis_results =
    Raise (KeyError "last_traded_price").
Proof.
  intros Hne Hall. unfold generate_investment_analysis.
  destruct analysis_results as [|r0 rs]; [done|].
  unfold active_subset, col. rewrite bool_decide_eq_false_2; [reflexivity|].
  intros Hin. apply column_inv in Hin as (r & Hr & Hc).
  by apply (keys_of_empty r _ (Hall r Hr)) in Hc.
Qed.

Lemma generate_raises_when_no_record_was_extracted_witness :
  generate_investment_analysis "2024-01-01 09:00:00" [Sample.failed_extraction] =
    Raise (KeyError "last_traded_price").
Proof.
  apply generate_raises_when_no_record_was_extracted; [done|].
  intros r Hr. apply list_elem_of_singleton in Hr as ->. reflexivity.
Defined.

(** X18: when some record is active but no record carries a
    ['position_in_ytd_range'] (no snapshot had usable year-to-date high and
    low), the aggregation raises [KeyError] on that column instead of
    returning a report: [_analyze_valuations] reads the column without
    testing that it exists. *)
Theorem generate_raises_without_ytd_positions
    (now : string) (analysis_results : list CompanyAnalysis)
    (r : CompanyAnalysis) (p : Q) :
  r ∈ analysis_results ->
  numeric (cell_at r "last_traded_price") = Some p -> 0 < p ->
  (forall r', r' ∈ analysis_results -> "position_in_ytd_range" ∉ keys r') ->
  generate_investment_analysis now analysis_results =
    Raise (KeyError "position_in_ytd_range").
Proof.
  intros Hr Hp Hpos Hnone. unfold generate_investment_analysis.
  destruct analysis_results as [|r0 rs] eqn:Ers; [by apply elem_of_nil in Hr|].
  rewrite <- Ers in *. clear Ers r0 rs.
  destruct (numeric_cell_extracted r _ _ Hp) as (b & m & Hext).
  assert (Hcol : forall c,
    c ∈ ["symbol"; "name"; "last_traded_price"; "change_percentage"; "today_volume";
         "today_turnover"; "market_cap"; "tri_asi_beta"; "ytd_high"; "ytd_low"] ->
    c ∈ columns (pd_DataFrame analysis_results)).
  { intros c Hc. apply (pd_DataFrame_column _ r); [done|]. by eapply base_keys. }
  unfold active_subset. rewrite col_Ok by (apply Hcol; set_solver). res_simpl.
  set (df_active := df_filter _ (pd_DataFrame analysis_results)).
  assert (Hactive : r ∈ rows df_active).
  { subst df_active. cbn [df_filter rows pd_DataFrame]. apply List_filter_elem.
    split; [done|]. rewrite Hp. apply andb_true_iff. split; [done|].
    apply cmp_gt_Some. eauto. }
  assert (Hempty : df_empty df_active = false).
  { apply (df_empty_false _ r "last_traded_price"); [done|]. apply Hcol. set_solver. }
  unfold _analyze_market_overview. rewrite Hempty.
  rewrite !col_Ok by (apply Hcol; set_solver). res_simpl.
  assert (Hmissing : col df_active "position_in_ytd_range" =
                     Raise (KeyError "position_in_ytd_range")).
  { unfold col. rewrite bool_decide_eq_false_2; [reflexivity|].
    intros Hin. subst df_active. cbn [df_filter columns] in Hin.
    apply column_inv in Hin as (r' & Hr' & Hc). by apply (Hnone r' Hr'). }
  unfold _analyze_valuations. rewrite Hempty, Hmissing. reflexivity.
Qed.

Lemma generate_raises_without_ytd_positions_witness :
  generate_investment_analysis "2024-01-01 09:00:00" Sample.three_changes =
    Raise (KeyError "position_in_ytd_range").
Proof.
  apply (generate_raises_without_ytd_positions _ _ (Sample.changed 5.2) 10.5);
    [by left | reflexivity | reflexivity |].
  intros r Hr.
  repeat (apply elem_of_cons in Hr as [->|Hr];
          [apply (bool_decide_unpack _); vm_compute; exact I|]).
  by apply elem_of_nil in Hr.
Defined.

(** X19: when some record was extracted but no record is active (no last
    traded price is present and positive), the aggregation returns a report
    whose summary counts every record as inactive and whose sections are all
    empty: no statistics, no note and no opportunity list, whatever columns
    the records have. *)
Theorem report_without_active_records
    (now : string) (analysis_results : list CompanyAnalysis)
    (r : CompanyAnalysis) (b : Base.t) (m : Metrics) :
  r ∈ analysis_results -> fields r = Extracted b m ->
  (forall r' p, r' ∈ analysis_results ->
     numeric (cell_at r' "last_traded_price") = Some p -> p <= 0) ->
  generate_investment_analysis now analysis_results =
    Ok (Full (mkAnalysis
                (mkSummary (length analysis_results) 0 (length analysis_results) now)
                None None RiskEmpty None LiquidityEmpty
                (mkOpportunities None None None))).
Proof.
  intros Hr Hext Hnone. unfold generate_investment_analysis.
  destruct analysis_results as [|r0 rs] eqn:Ers; [by apply elem_of_nil in Hr|].
  rewrite <- Ers in *. clear Ers r0 rs.
  unfold active_subset. rewrite col_Ok.
  2:{ apply (pd_DataFrame_column _ r); [done|]. eapply base_keys; [done|set_solver]. }
  res_simpl. unfold df_filter. cbn [rows pd_DataFrame columns].
  rewrite List_filter_none.
  - cbn. by rewrite Nat.sub_0_r.
  - intros r' Hr'. destruct (numeric (cell_at r' "last_traded_price")) as [p|] eqn:Hp;
      [|done].
    rewrite notna_Some. cbn [andb cmp_gt]. apply Qltb_ge. by eapply Hnone.
Qed.

Lemma report_without_active_records_witness :
  generate_investment_analysis "2024-01-01 09:00:00" [Sample.not_traded] =
    Ok (Full (mkAnalysis (mkSummary 1 0 1 "2024-01-01 09:00:00")
                         None None RiskEmpty None LiquidityEmpty
                         (mkOpportunities None None None))).
Proof.
  eapply (report_without_active_records _ [Sample.not_traded] Sample.not_traded);
    [by left | reflexivity |].
  intros r p Hr Hp. apply list_elem_of_singleton in Hr as ->.
  vm_compute in Hp. injection Hp as <-. apply Qle_refl.
Defined.
